(** * Cyberlaw-Enforcement: the popup's session driver, ledger mirror and
      the CyberLawLedger contract, embedded and verified.

    Sources embedded here:
    - [src/frontend/public/script.js]: the address pattern, the flagging form
      handler, the courtroom polling loop, the reset handler and the
      Firestore snapshot listener;
    - [src/blockchain/contracts/CyberLawLedger.sol]: [recordCase], [payFine]
      and [distributeCompensation]. *)

From Stdlib Require Import Ascii String.
From stdpp Require Import gmap strings list fin_maps pretty.

Local Open Scope string_scope.

(** ** JavaScript values used by the popup

    A JavaScript string is kept as the bytes of its UTF-8 encoding, which is
    also what a string literal of this file denotes: an ASCII character is
    one byte, U+00A0 the two bytes 194 160. The handlers embedded here
    compare strings only for equality and emptiness, and look at single
    characters only in [trim], in [replace(/_/g, ' ')] and in the address
    pattern. *)

Module Js.

(** [!s] is false exactly for the empty string. *)
Definition truthy (s : string) : bool :=
  match s with
  | EmptyString => false
  | String _ _ => true
  end.

(** Truthiness of a value that is [null]/[undefined] or a string. *)
Definition truthy_opt (o : option string) : bool :=
  match o with
  | Some s => truthy s
  | None => false
  end.

(** [a || b] for an optional string on the left and a string default. *)
Definition or_default (o : option string) (d : string) : string :=
  match o with
  | Some s => if truthy s then s else d
  | None => d
  end.

(** [v === null] *)
Definition is_null {A : Type} (o : option A) : bool :=
  match o with
  | Some _ => false
  | None => true
  end.

(** The code points removed by [String.prototype.trim]: ECMAScript's
    WhiteSpace (TAB, VT, FF, SPACE, U+00A0, U+FEFF and the rest of Unicode's
    category Zs: U+1680, U+2000 to U+200A, U+202F, U+205F, U+3000) and
    LineTerminator (LF, CR, U+2028, U+2029). A string is the sequence of
    bytes of its UTF-8 encoding, as in a string literal of this file, so a
    code point is one, two or three bytes here. *)
Definition is_space1 (a : ascii) : bool :=
  let n := N_of_ascii a in
  ((9 <=? n)%N && (n <=? 13)%N) || (n =? 32)%N.

(** U+00A0 is [C2 A0]. *)
Definition is_space2 (a b : ascii) : bool :=
  (N_of_ascii a =? 194)%N && (N_of_ascii b =? 160)%N.

(** U+1680 is [E1 9A 80]; U+2000 to U+200A are [E2 80 80] to [E2 80 8A];
    U+2028, U+2029 and U+202F are [E2 80 A8], [E2 80 A9] and [E2 80 AF];
    U+205F is [E2 81 9F]; U+3000 is [E3 80 80]; U+FEFF is [EF BB BF]. *)
Definition is_space3 (a b c : ascii) : bool :=
  let x := N_of_ascii a in
  let y := N_of_ascii b in
  let z := N_of_ascii c in
  ((x =? 225)%N && (y =? 154)%N && (z =? 128)%N)
  || ((x =? 226)%N && (y =? 128)%N
      && (((128 <=? z)%N && (z <=? 138)%N)
          || (z =? 168)%N || (z =? 169)%N || (z =? 175)%N))
  || ((x =? 226)%N && (y =? 129)%N && (z =? 159)%N)
  || ((x =? 227)%N && (y =? 128)%N && (z =? 128)%N)
  || ((x =? 239)%N && (y =? 187)%N && (z =? 191)%N).

(** Drops leading white space, one code point at a time. *)
Fixpoint trim_start (s : string) : string :=
  match s with
  | EmptyString => EmptyString
  | String a s1 =>
      if is_space1 a then trim_start s1
      else
        match s1 with
        | EmptyString => s
        | String b s2 =>
            if is_space2 a b then trim_start s2
            else
              match s2 with
              | EmptyString => s
              | String c s3 => if is_space3 a b c then trim_start s3 else s
              end
        end
  end.

(** Drops trailing white space: the string is cut at the first position
    from which nothing but white space follows. *)
Fixpoint trim_end (s : string) : string :=
  match s with
  | EmptyString => EmptyString
  | String c s' =>
      if truthy (trim_start s) then String c (trim_end s') else EmptyString
  end.

Definition trim (s : string) : string := trim_end (trim_start s).

(** The same code points by number, and the UTF-8 encoding of a code point
    below U+10000, to check the byte patterns of [is_space1], [is_space2]
    and [is_space3] against. *)
Definition white_space : list N :=
  [9; 10; 11; 12; 13; 32; 160; 5760;
   8192; 8193; 8194; 8195; 8196; 8197; 8198; 8199; 8200; 8201; 8202;
   8232; 8233; 8239; 8287; 12288; 65279]%N.

Definition utf8 (cp : N) : string :=
  if (cp <? 128)%N then String (ascii_of_N cp) EmptyString
  else if (cp <? 2048)%N
  then String (ascii_of_N (192 + cp / 64))
         (String (ascii_of_N (128 + cp mod 64)) EmptyString)
  else String (ascii_of_N (224 + cp / 4096))
         (String (ascii_of_N (128 + (cp / 64) mod 64))
            (String (ascii_of_N (128 + cp mod 64)) EmptyString)).

(** [s.replace(/_/g, ' ')] *)
Fixpoint replace_underscores (s : string) : string :=
  match s with
  | EmptyString => EmptyString
  | String c s' =>
      String (if Ascii.eqb c "_" then " "%char else c) (replace_underscores s')
  end.

End Js.

(** ** Regular expressions, as far as the popup's pattern needs them

    [RegExp.prototype.test] on a pattern anchored by [^] and [$] (no flags)
    decides whether the whole subject string belongs to the language of the
    pattern's body. The body is matched by Brzozowski derivatives. *)

Module Regex.

Inductive regex : Type :=
| Void
| Eps
| Chr (c : ascii)
| Class (ranges : list (ascii * ascii))
| Seq (r1 r2 : regex)
| Alt (r1 r2 : regex)
| Star (r : regex).

(** [r{n}] *)
Fixpoint times (n : nat) (r : regex) : regex :=
  match n with
  | O => Eps
  | S n' => Seq r (times n' r)
  end.

Definition in_range (c : ascii) (rg : ascii * ascii) : bool :=
  (nat_of_ascii (fst rg) <=? nat_of_ascii c)%nat
  && (nat_of_ascii c <=? nat_of_ascii (snd rg))%nat.

Definition in_class (ranges : list (ascii * ascii)) (c : ascii) : bool :=
  existsb (in_range c) ranges.

Fixpoint nullable (r : regex) : bool :=
  match r with
  | Void => false
  | Eps => true
  | Chr _ => false
  | Class _ => false
  | Seq r1 r2 => nullable r1 && nullable r2
  | Alt r1 r2 => nullable r1 || nullable r2
  | Star _ => true
  end.

Fixpoint deriv (c : ascii) (r : regex) : regex :=
  match r with
  | Void => Void
  | Eps => Void
  | Chr a => if Ascii.eqb a c then Eps else Void
  | Class ranges => if in_class ranges c then Eps else Void
  | Seq r1 r2 =>
      Alt (Seq (deriv c r1) r2) (if nullable r1 then deriv c r2 else Void)
  | Alt r1 r2 => Alt (deriv c r1) (deriv c r2)
  | Star r' => Seq (deriv c r') (Star r')
  end.

(** Whole-string match: [/^r$/.test(s)]. *)
Fixpoint test (r : regex) (s : string) : bool :=
  match s with
  | EmptyString => nullable r
  | String c s' => test (deriv c r) s'
  end.

End Regex.

(** ** The victim-address check of [handleFlagPost] *)

(** [/^0x[a-fA-F0-9]{40}$/] *)
Definition address_pattern : Regex.regex :=
  Regex.Seq (Regex.Chr "0")
    (Regex.Seq (Regex.Chr "x")
       (Regex.times 40
          (Regex.Class [("a", "f"); ("A", "F"); ("0", "9")]%char))).

(** The guard of line 388, negated: the value passes when the [if] is not
    taken. [victimEthAddress && !/^0x[a-fA-F0-9]{40}$/.test(victimEthAddress)] *)
Definition victimEthAddress_rejected (victimEthAddress : string) : bool :=
  Js.truthy victimEthAddress
  && negb (Regex.test address_pattern victimEthAddress).

Definition victimEthAddress_accepted (victimEthAddress : string) : bool :=
  negb (victimEthAddress_rejected victimEthAddress).

(** The pattern in the words of the specification: the two characters [0x]
    followed by exactly forty hexadecimal digits. *)
Definition hex_digits : list ascii :=
  list_ascii_of_string "0123456789abcdefABCDEF".

Definition is_hex_digit (c : ascii) : Prop := In c hex_digits.

Definition well_formed_address (s : string) : Prop :=
  exists digits : list ascii,
    s = "0x" +:+ string_of_list_ascii digits
    /\ length digits = 40%nat
    /\ Forall is_hex_digit digits.

(** ** The popup: [script.js] *)

Module Popup.

(** *** Data *)

(** Records carry primitive projections: a record is equal to the record of
    its fields, as a JavaScript object is determined by its properties. *)
#[local] Set Primitive Projections.

(** One entry of [courtroomSessionState.transcript]. *)
Record TranscriptLine : Type := {
  agent_name : string;
  message : string;
  type : string;
  timestamp : Z
}.

(** [courtroomSessionState.final_verdict]. The amounts are kept as the
    decimal literals of the reply; the popup only formats them. *)
Record FinalVerdict : Type := {
  verdict_type : string;
  final_fine_eth : string;
  final_ban_status : string;
  explanation : string;
  final_compensation_eth : string;
  social_score : Z;
  social_score_explanation : string
}.

(** [appState.courtroomSessionState]; [None] stands for [null]. *)
Record CourtroomSessionState : Type := {
  court_status : string;
  current_turn_agent : option string;
  transcript : list TranscriptLine;
  jury_deliberation_history : list string;
  jury_votes : gmap string string;
  final_verdict : option FinalVerdict;
  error_message : option string;
  agents_status : gmap string string
}.

(** The literal used by the initial [appState] and by
    [resetCourtroomSessionView]. *)
Definition idle_session : CourtroomSessionState := {|
  court_status := "IDLE";
  current_turn_agent := None;
  transcript := [];
  jury_deliberation_history := [];
  jury_votes := ∅;
  final_verdict := None;
  error_message := None;
  agents_status := ∅
|}.

(** A JSON scalar of a Firestore document. *)
Inductive JsValue : Type :=
| JNull
| JBool (b : bool)
| JNumber (n : Z)
| JString (s : string).

(** A Firestore document: [doc.id] and [doc.data()]. *)
Record Doc : Type := {
  doc_id : string;
  doc_data : gmap string JsValue
}.

(** The global [appState]. Its four form-mirroring strings ([postContent],
    [postLink], [victimInfo], [victimEthAddress]) are never read or written
    after initialisation and are left out. *)
Record AppState : Type := {
  status : string;
  log : list string;
  isProcessing : bool;
  cases : list (gmap string JsValue);
  error : option string;
  showCourtroom : bool;
  currentCaseIdForCourtroom : option string;
  courtroomSessionState : CourtroomSessionState
}.

(** [agentsData], as far as the panels use it. *)
Record Agent : Type := {
  agent_id : string;
  name : string;
  role : string
}.

Definition agentsData : list Agent := [
  {| agent_id := "prosecution"; name := "Prosecution Lawyer"; role := "Prosecutor" |};
  {| agent_id := "defense"; name := "Defense Lawyer"; role := "Defender" |};
  {| agent_id := "judge"; name := "Court Judge"; role := "Adjudicator" |};
  {| agent_id := "cyber_expert"; name := "Cyber Law Expert"; role := "Jury" |};
  {| agent_id := "digital_activist"; name := "Digital Rights Activist"; role := "Jury" |};
  {| agent_id := "social_media"; name := "Social Media Expert"; role := "Jury" |};
  {| agent_id := "clerk"; name := "Court Clerk"; role := "Recorder" |}
].

(** One rendered agent panel: the agent, whether it is highlighted as the
    current speaker, and the text spliced after [Status:] into the panel's
    [innerHTML], which the browser reads as markup. *)
Record AgentPanel : Type := {
  panel_agent : Agent;
  panel_highlighted : bool;
  panel_status : string
}.

(** The flagging form. [flagPostButton_processing] stands for the button's
    [disabled] attribute, its [processing] class and the spinner, which
    [updateProcessingState] always switches together. *)
Record FlagForm : Type := {
  postContentInput : string;
  postLinkInput : string;
  victimInfoInput : string;
  victimEthAddressInput : string;
  flagPostButton_processing : bool
}.

(** The elements outside the courtroom area. *)
Record MainView : Type := {
  logDisplay : list string;
  currentStatusSpan : string;
  userIdDisplay : string;
  casesTableBody : list (gmap string JsValue);
  errorDisplay_hidden : bool;
  errorMessageSpan : string;
  mainContentArea_hidden : bool
}.

(** The courtroom area. A [_hidden] field is true when the element carries
    the class [hidden]. The spans of the verdict details are not tracked. *)
Record CourtroomView : Type := {
  courtroomSessionArea_hidden : bool;
  courtroomCaseIdDisplay : string;
  courtroomCurrentPhaseDisplay : string;
  agentPanels : list AgentPanel;
  courtroomTranscriptContent : list string;
  finalVerdictDisplay_hidden : bool;
  startCourtroomButton_hidden : bool;
  resetCourtroomButton_hidden : bool;
  startCourtroomButton_disabled : bool
}.

Record Page : Type := {
  form : FlagForm;
  main : MainView;
  court : CourtroomView
}.

(** Body of [POST /flag_post]. *)
Record FlagPostBody : Type := {
  body_postContent : string;
  body_victimInfo : string;
  body_userId : string;
  body_postLink : string;
  body_victimEthAddress : string
}.

(** A request handed to [fetch]. *)
Inductive Request : Type :=
| PostFlagPost (body : FlagPostBody)
| PostStartCourtroomSession (case_id : string)
| GetCourtroomUpdates (case_id : string).

(** Everything the handlers read or write: the [appState] object, the page,
    the module-level variables [userId] and [courtroomPollingInterval],
    and the two browser facilities they drive: the set of intervals that are
    currently scheduled (all of them run [fetchCourtroomUpdates], the only
    callback ever given to [setInterval]) with the next handle to hand out,
    and the requests given to [fetch] so far, oldest first. *)
Record State : Type := {
  appState : AppState;
  page : Page;
  userId : option string;
  courtroomPollingInterval : option positive;
  intervals : gset positive;
  next_interval : positive;
  network : list Request
}.

#[local] Unset Primitive Projections.

(** *** Field updates *)

Definition with_appState (f : AppState -> AppState) (st : State) : State :=
  {| appState := f (appState st); page := page st; userId := userId st;
     courtroomPollingInterval := courtroomPollingInterval st;
     intervals := intervals st; next_interval := next_interval st;
     network := network st |}.

Definition with_page (f : Page -> Page) (st : State) : State :=
  {| appState := appState st; page := f (page st); userId := userId st;
     courtroomPollingInterval := courtroomPollingInterval st;
     intervals := intervals st; next_interval := next_interval st;
     network := network st |}.

Definition with_form (f : FlagForm -> FlagForm) : State -> State :=
  with_page (fun p => {| form := f (form p); main := main p; court := court p |}).

Definition with_main (f : MainView -> MainView) : State -> State :=
  with_page (fun p => {| form := form p; main := f (main p); court := court p |}).

Definition with_court (f : CourtroomView -> CourtroomView) : State -> State :=
  with_page (fun p => {| form := form p; main := main p; court := f (court p) |}).

Definition with_session (f : CourtroomSessionState -> CourtroomSessionState)
  : State -> State :=
  with_appState (fun a =>
    {| status := status a; log := log a; isProcessing := isProcessing a;
       cases := cases a; error := error a; showCourtroom := showCourtroom a;
       currentCaseIdForCourtroom := currentCaseIdForCourtroom a;
       courtroomSessionState := f (courtroomSessionState a) |}).

Definition set_log (l : list string) : State -> State :=
  with_appState (fun a =>
    {| status := status a; log := l; isProcessing := isProcessing a;
       cases := cases a; error := error a; showCourtroom := showCourtroom a;
       currentCaseIdForCourtroom := currentCaseIdForCourtroom a;
       courtroomSessionState := courtroomSessionState a |}).

Definition set_app_status (s : string) : State -> State :=
  with_appState (fun a =>
    {| status := s; log := log a; isProcessing := isProcessing a;
       cases := cases a; error := error a; showCourtroom := showCourtroom a;
       currentCaseIdForCourtroom := currentCaseIdForCourtroom a;
       courtroomSessionState := courtroomSessionState a |}).

Definition set_isProcessing (b : bool) : State -> State :=
  with_appState (fun a =>
    {| status := status a; log := log a; isProcessing := b;
       cases := cases a; error := error a; showCourtroom := showCourtroom a;
       currentCaseIdForCourtroom := currentCaseIdForCourtroom a;
       courtroomSessionState := courtroomSessionState a |}).

Definition set_cases (cs : list (gmap string JsValue)) : State -> State :=
  with_appState (fun a =>
    {| status := status a; log := log a; isProcessing := isProcessing a;
       cases := cs; error := error a; showCourtroom := showCourtroom a;
       currentCaseIdForCourtroom := currentCaseIdForCourtroom a;
       courtroomSessionState := courtroomSessionState a |}).

Definition set_app_error (e : option string) : State -> State :=
  with_appState (fun a =>
    {| status := status a; log := log a; isProcessing := isProcessing a;
       cases := cases a; error := e; showCourtroom := showCourtroom a;
       currentCaseIdForCourtroom := currentCaseIdForCourtroom a;
       courtroomSessionState := courtroomSessionState a |}).

Definition set_showCourtroom (b : bool) : State -> State :=
  with_appState (fun a =>
    {| status := status a; log := log a; isProcessing := isProcessing a;
       cases := cases a; error := error a; showCourtroom := b;
       currentCaseIdForCourtroom := currentCaseIdForCourtroom a;
       courtroomSessionState := courtroomSessionState a |}).

Definition set_currentCaseIdForCourtroom (c : option string) : State -> State :=
  with_appState (fun a =>
    {| status := status a; log := log a; isProcessing := isProcessing a;
       cases := cases a; error := error a; showCourtroom := showCourtroom a;
       currentCaseIdForCourtroom := c;
       courtroomSessionState := courtroomSessionState a |}).

Definition set_court_status (s : string) : State -> State :=
  with_session (fun c =>
    {| court_status := s; current_turn_agent := current_turn_agent c;
       transcript := transcript c;
       jury_deliberation_history := jury_deliberation_history c;
       jury_votes := jury_votes c; final_verdict := final_verdict c;
       error_message := error_message c; agents_status := agents_status c |}).

Definition set_error_message (m : option string) : State -> State :=
  with_session (fun c =>
    {| court_status := court_status c; current_turn_agent := current_turn_agent c;
       transcript := transcript c;
       jury_deliberation_history := jury_deliberation_history c;
       jury_votes := jury_votes c; final_verdict := final_verdict c;
       error_message := m; agents_status := agents_status c |}).

Definition set_courtroomPollingInterval (h : option positive) (st : State) : State :=
  {| appState := appState st; page := page st; userId := userId st;
     courtroomPollingInterval := h;
     intervals := intervals st; next_interval := next_interval st;
     network := network st |}.

Definition set_userId (u : option string) (st : State) : State :=
  {| appState := appState st; page := page st; userId := u;
     courtroomPollingInterval := courtroomPollingInterval st;
     intervals := intervals st; next_interval := next_interval st;
     network := network st |}.

(** [fetch(...)]: the request leaves the popup. *)
Definition fetch (r : Request) (st : State) : State :=
  {| appState := appState st; page := page st; userId := userId st;
     courtroomPollingInterval := courtroomPollingInterval st;
     intervals := intervals st; next_interval := next_interval st;
     network := network st ++ [r] |}.

(** [clearInterval(h)]: nothing happens for [null]. *)
Definition clearInterval (h : option positive) (st : State) : State :=
  {| appState := appState st; page := page st; userId := userId st;
     courtroomPollingInterval := courtroomPollingInterval st;
     intervals :=
       match h with
       | Some i => intervals st ∖ {[i]}
       | None => intervals st
       end;
     next_interval := next_interval st;
     network := network st |}.

(** [setInterval(fetchCourtroomUpdates, 3000)]: schedules a new interval and
    returns its handle, a positive integer never handed out before. *)
Definition setInterval (st : State) : positive * State :=
  let i := next_interval st in
  (i, {| appState := appState st; page := page st; userId := userId st;
         courtroomPollingInterval := courtroomPollingInterval st;
         intervals := {[i]} ∪ intervals st; next_interval := Pos.succ i;
         network := network st |}).

(** Handlers are sequences of state updates. *)
Definition seq (c1 c2 : State -> State) : State -> State :=
  fun st => c2 (c1 st).

Definition skip : State -> State := fun st => st.

(** [if (b) { c1 } else { c2 }] *)
Definition cond (b : bool) (c1 c2 : State -> State) : State -> State :=
  fun st => if b then c1 st else c2 st.

Declare Scope cmd_scope.
Delimit Scope cmd_scope with cmd.
Notation "c1 ;> c2" := (seq c1 c2)
  (at level 61, left associativity) : cmd_scope.
Local Open Scope cmd_scope.

(** *** Page updates *)

Definition set_logDisplay (l : list string) : State -> State :=
  with_main (fun m =>
    {| logDisplay := l; currentStatusSpan := currentStatusSpan m;
       userIdDisplay := userIdDisplay m; casesTableBody := casesTableBody m;
       errorDisplay_hidden := errorDisplay_hidden m;
       errorMessageSpan := errorMessageSpan m;
       mainContentArea_hidden := mainContentArea_hidden m |}).

Definition set_currentStatusSpan (s : string) : State -> State :=
  with_main (fun m =>
    {| logDisplay := logDisplay m; currentStatusSpan := s;
       userIdDisplay := userIdDisplay m; casesTableBody := casesTableBody m;
       errorDisplay_hidden := errorDisplay_hidden m;
       errorMessageSpan := errorMessageSpan m;
       mainContentArea_hidden := mainContentArea_hidden m |}).

Definition set_userIdDisplay (s : string) : State -> State :=
  with_main (fun m =>
    {| logDisplay := logDisplay m; currentStatusSpan := currentStatusSpan m;
       userIdDisplay := s; casesTableBody := casesTableBody m;
       errorDisplay_hidden := errorDisplay_hidden m;
       errorMessageSpan := errorMessageSpan m;
       mainContentArea_hidden := mainContentArea_hidden m |}).

Definition set_casesTableBody (rows : list (gmap string JsValue)) : State -> State :=
  with_main (fun m =>
    {| logDisplay := logDisplay m; currentStatusSpan := currentStatusSpan m;
       userIdDisplay := userIdDisplay m; casesTableBody := rows;
       errorDisplay_hidden := errorDisplay_hidden m;
       errorMessageSpan := errorMessageSpan m;
       mainContentArea_hidden := mainContentArea_hidden m |}).

Definition set_errorDisplay (hidden : bool) (text : string) : State -> State :=
  with_main (fun m =>
    {| logDisplay := logDisplay m; currentStatusSpan := currentStatusSpan m;
       userIdDisplay := userIdDisplay m; casesTableBody := casesTableBody m;
       errorDisplay_hidden := hidden; errorMessageSpan := text;
       mainContentArea_hidden := mainContentArea_hidden m |}).

Definition set_mainContentArea_hidden (b : bool) : State -> State :=
  with_main (fun m =>
    {| logDisplay := logDisplay m; currentStatusSpan := currentStatusSpan m;
       userIdDisplay := userIdDisplay m; casesTableBody := casesTableBody m;
       errorDisplay_hidden := errorDisplay_hidden m;
       errorMessageSpan := errorMessageSpan m;
       mainContentArea_hidden := b |}).

Definition set_courtroomSessionArea_hidden (b : bool) : State -> State :=
  with_court (fun v =>
    {| courtroomSessionArea_hidden := b;
       courtroomCaseIdDisplay := courtroomCaseIdDisplay v;
       courtroomCurrentPhaseDisplay := courtroomCurrentPhaseDisplay v;
       agentPanels := agentPanels v;
       courtroomTranscriptContent := courtroomTranscriptContent v;
       finalVerdictDisplay_hidden := finalVerdictDisplay_hidden v;
       startCourtroomButton_hidden := startCourtroomButton_hidden v;
       resetCourtroomButton_hidden := resetCourtroomButton_hidden v;
       startCourtroomButton_disabled := startCourtroomButton_disabled v |}).

Definition set_courtroomCaseIdDisplay (s : string) : State -> State :=
  with_court (fun v =>
    {| courtroomSessionArea_hidden := courtroomSessionArea_hidden v;
       courtroomCaseIdDisplay := s;
       courtroomCurrentPhaseDisplay := courtroomCurrentPhaseDisplay v;
       agentPanels := agentPanels v;
       courtroomTranscriptContent := courtroomTranscriptContent v;
       finalVerdictDisplay_hidden := finalVerdictDisplay_hidden v;
       startCourtroomButton_hidden := startCourtroomButton_hidden v;
       resetCourtroomButton_hidden := resetCourtroomButton_hidden v;
       startCourtroomButton_disabled := startCourtroomButton_disabled v |}).

(** Phase label, agent panels and transcript are rewritten together. *)
Definition set_courtroom_contents (phase : string) (panels : list AgentPanel)
    (lines : list string) : State -> State :=
  with_court (fun v =>
    {| courtroomSessionArea_hidden := courtroomSessionArea_hidden v;
       courtroomCaseIdDisplay := courtroomCaseIdDisplay v;
       courtroomCurrentPhaseDisplay := phase;
       agentPanels := panels;
       courtroomTranscriptContent := lines;
       finalVerdictDisplay_hidden := finalVerdictDisplay_hidden v;
       startCourtroomButton_hidden := startCourtroomButton_hidden v;
       resetCourtroomButton_hidden := resetCourtroomButton_hidden v;
       startCourtroomButton_disabled := startCourtroomButton_disabled v |}).

Definition set_finalVerdictDisplay_hidden (b : bool) : State -> State :=
  with_court (fun v =>
    {| courtroomSessionArea_hidden := courtroomSessionArea_hidden v;
       courtroomCaseIdDisplay := courtroomCaseIdDisplay v;
       courtroomCurrentPhaseDisplay := courtroomCurrentPhaseDisplay v;
       agentPanels := agentPanels v;
       courtroomTranscriptContent := courtroomTranscriptContent v;
       finalVerdictDisplay_hidden := b;
       startCourtroomButton_hidden := startCourtroomButton_hidden v;
       resetCourtroomButton_hidden := resetCourtroomButton_hidden v;
       startCourtroomButton_disabled := startCourtroomButton_disabled v |}).

(** The two buttons always change class together. *)
Definition set_buttons_hidden (start reset : bool) : State -> State :=
  with_court (fun v =>
    {| courtroomSessionArea_hidden := courtroomSessionArea_hidden v;
       courtroomCaseIdDisplay := courtroomCaseIdDisplay v;
       courtroomCurrentPhaseDisplay := courtroomCurrentPhaseDisplay v;
       agentPanels := agentPanels v;
       courtroomTranscriptContent := courtroomTranscriptContent v;
       finalVerdictDisplay_hidden := finalVerdictDisplay_hidden v;
       startCourtroomButton_hidden := start;
       resetCourtroomButton_hidden := reset;
       startCourtroomButton_disabled := startCourtroomButton_disabled v |}).

Definition set_startCourtroomButton_disabled (b : bool) : State -> State :=
  with_court (fun v =>
    {| courtroomSessionArea_hidden := courtroomSessionArea_hidden v;
       courtroomCaseIdDisplay := courtroomCaseIdDisplay v;
       courtroomCurrentPhaseDisplay := courtroomCurrentPhaseDisplay v;
       agentPanels := agentPanels v;
       courtroomTranscriptContent := courtroomTranscriptContent v;
       finalVerdictDisplay_hidden := finalVerdictDisplay_hidden v;
       startCourtroomButton_hidden := startCourtroomButton_hidden v;
       resetCourtroomButton_hidden := resetCourtroomButton_hidden v;
       startCourtroomButton_disabled := b |}).

Definition set_flagPostButton_processing (b : bool) : State -> State :=
  with_form (fun f =>
    {| postContentInput := postContentInput f; postLinkInput := postLinkInput f;
       victimInfoInput := victimInfoInput f;
       victimEthAddressInput := victimEthAddressInput f;
       flagPostButton_processing := b |}).

Definition set_postContentInput (s : string) : State -> State :=
  with_form (fun f =>
    {| postContentInput := s; postLinkInput := postLinkInput f;
       victimInfoInput := victimInfoInput f;
       victimEthAddressInput := victimEthAddressInput f;
       flagPostButton_processing := flagPostButton_processing f |}).

Definition set_postLinkInput (s : string) : State -> State :=
  with_form (fun f =>
    {| postContentInput := postContentInput f; postLinkInput := s;
       victimInfoInput := victimInfoInput f;
       victimEthAddressInput := victimEthAddressInput f;
       flagPostButton_processing := flagPostButton_processing f |}).

Definition set_victimInfoInput (s : string) : State -> State :=
  with_form (fun f =>
    {| postContentInput := postContentInput f; postLinkInput := postLinkInput f;
       victimInfoInput := s;
       victimEthAddressInput := victimEthAddressInput f;
       flagPostButton_processing := flagPostButton_processing f |}).

(** Only the user writes this field; no handler of [script.js] does. *)
Definition set_victimEthAddressInput (s : string) : State -> State :=
  with_form (fun f =>
    {| postContentInput := postContentInput f; postLinkInput := postLinkInput f;
       victimInfoInput := victimInfoInput f;
       victimEthAddressInput := s;
       flagPostButton_processing := flagPostButton_processing f |}).

(** *** Utility and render functions *)

Definition FASTAPI_BACKEND_URL : string := "http://127.0.0.1:8000".

Definition renderLog : State -> State :=
  fun st => set_logDisplay (log (appState st)) st.

(** [addLog]: [now] is the text of [new Date().toLocaleTimeString()] at the
    moment of the call. A handler passes one reading to all the entries it
    writes between two [await]s. *)
Definition addLog (now message : string) : State -> State :=
  (fun st => set_log (log (appState st) ++ [now +:+ ": " +:+ message]) st)
  ;> renderLog.

Definition renderError : State -> State :=
  fun st =>
    match error (appState st) with
    | Some e =>
        if Js.truthy e then set_errorDisplay false e st
        else set_errorDisplay true "" st
    | None => set_errorDisplay true "" st
    end.

Definition setError (message : option string) : State -> State :=
  set_app_error message ;> renderError.

Definition renderStatus : State -> State :=
  fun st => set_currentStatusSpan (status (appState st)) st.

Definition setStatus (message : string) : State -> State :=
  set_app_status message ;> renderStatus.

Definition updateProcessingState (b : bool) : State -> State :=
  set_isProcessing b ;> set_flagPostButton_processing b.

Definition renderUserId : State -> State :=
  fun st => set_userIdDisplay (Js.or_default (userId st) "Loading...") st.

Definition renderCasesTable : State -> State :=
  fun st => set_casesTableBody (cases (appState st)) st.

Definition is_terminal (court_status : string) : bool :=
  String.eqb court_status "COMPLETED" || String.eqb court_status "ERROR".

Definition transcript_className (line : TranscriptLine) : string :=
  let t := type line in
  "mb-1 text-sm" +:+
  (if String.eqb t "statement" || String.eqb t "vote"
      || String.eqb t "query" || String.eqb t "answer"
   then " font-medium text-gray-800"
   else if String.eqb t "system" then " italic text-indigo-700"
   else if String.eqb t "error" then " text-red-600 font-semibold"
   else " text-gray-600").

Definition render_agent_panel (state : CourtroomSessionState) (agent : Agent)
  : AgentPanel :=
  {| panel_agent := agent;
     panel_highlighted :=
       bool_decide (current_turn_agent state = Some (name agent));
     panel_status :=
       Js.or_default (agents_status state !! name agent) "Waiting" |}.

Definition render_agent_panels (state : CourtroomSessionState)
  : list AgentPanel :=
  map (render_agent_panel state) agentsData.

Definition startCourtroomPolling (now : string) : State -> State :=
  fun st =>
    let st1 :=
      match courtroomPollingInterval st with
      | Some i => clearInterval (Some i) st
      | None => st
      end in
    let '(i, st2) := setInterval st1 in
    (set_courtroomPollingInterval (Some i)
     ;> addLog now "Started polling for courtroom updates.") st2.

(** [clearInterval(courtroomPollingInterval); courtroomPollingInterval = null;] *)
Definition stop_polling : State -> State :=
  (fun st => clearInterval (courtroomPollingInterval st) st)
  ;> set_courtroomPollingInterval None.

Definition renderCourtroomSessionState (now : string) : State -> State :=
  fun st0 =>
    let state := courtroomSessionState (appState st0) in
    ((* phase, agent panels, transcript *)
     set_courtroom_contents
       (Js.replace_underscores (court_status state))
       (render_agent_panels state)
       (map transcript_className (transcript state))
     (* final verdict display *)
     ;> cond (negb (Js.is_null (final_verdict state)))
          (set_finalVerdictDisplay_hidden false
           ;> set_buttons_hidden true false)
          (set_finalVerdictDisplay_hidden true
           ;> cond (String.eqb (court_status state) "IDLE")
                (set_buttons_hidden false true)
                skip)
     (* buttons by courtroom status *)
     ;> cond (is_terminal (court_status state))
          (set_buttons_hidden true false ;> stop_polling)
          (cond (String.eqb (court_status state) "IDLE")
             (set_buttons_hidden false true)
             (set_buttons_hidden true true))
     (* make sure polling is active while the session is live *)
     ;> (fun st =>
           if showCourtroom (appState st)
              && negb (is_terminal (court_status state))
              && Js.is_null (courtroomPollingInterval st)
           then startCourtroomPolling now st
           else st)) st0.

Definition renderAppUI (now : string) : State -> State :=
  fun st =>
    if showCourtroom (appState st)
    then (set_mainContentArea_hidden true
          ;> set_courtroomSessionArea_hidden false
          ;> set_courtroomCaseIdDisplay
               (default "" (currentCaseIdForCourtroom (appState st)))
          ;> renderCourtroomSessionState now) st
    else (set_mainContentArea_hidden false
          ;> set_courtroomSessionArea_hidden true) st.

(** *** The Firestore snapshot listener *)

(** [{ id: doc.id, ...doc.data() }]: the spread comes second, so a field
    [id] of the document data wins over [doc.id]. *)
Definition case_of_doc (d : Doc) : gmap string JsValue :=
  doc_data d ∪ {[ "id" := JString (doc_id d) ]}.

Definition nat_to_string (n : nat) : string := pretty n.

(** The success callback given to [q.onSnapshot]. *)
Definition onSnapshot (now : string) (docs : list Doc) : State -> State :=
  fun st =>
    if negb (Js.truthy_opt (userId st)) then st
    else
      let fetchedCases := map case_of_doc docs in
      (set_cases fetchedCases
       ;> addLog now ("Updated public ledger with "
                      +:+ nat_to_string (length fetchedCases) +:+ " cases.")
       ;> renderCasesTable) st.

(** The error callback given to [q.onSnapshot]. *)
Definition onSnapshotError (now message : string) : State -> State :=
  setError (Some ("Firestore Snapshot Error: " +:+ message))
  ;> addLog now ("Firestore Snapshot Error: " +:+ message).

(** The signed-in branch of the [onAuthStateChanged] callback. *)
Definition onAuthUser (now uid : string) : State -> State :=
  set_userId (Some uid)
  ;> addLog now ("User authenticated: " +:+ uid)
  ;> renderUserId.

(** *** [handleFlagPost] *)

Record CaseDetails : Type := {
  case_status : string
}.

(** Body of a 2xx reply to [/flag_post]; [None] is an absent field. *)
Record FlagData : Type := {
  data_message : option string;
  data_case_id : option string;
  data_case_details : option CaseDetails
}.

(** What the awaited [fetch] and [response.json()] produce. [json] is the
    text [JSON.stringify(data)] and [http_status] the text of
    [response.status]. *)
Inductive FlagReply : Type :=
| FlagOk (data : FlagData) (json : string)
| FlagNotOk (detail : option string) (http_status json : string)
| FlagThrow (message : string).

(** Up to the first [await]: validation, then the request. The result says
    whether a request was sent (and then the handler waits for its reply). *)
Definition handleFlagPost_begin (now : string) (st : State)
  : option FlagPostBody * State :=
  let postContent := Js.trim (postContentInput (form (page st))) in
  let postLink := Js.trim (postLinkInput (form (page st))) in
  let victimInfo := Js.trim (victimInfoInput (form (page st))) in
  let victimEthAddress := Js.trim (victimEthAddressInput (form (page st))) in
  if negb (Js.truthy postContent)
  then (None, setError (Some "Please enter the post content.") st)
  else if negb (Js.truthy victimInfo)
  then (None, setError (Some "Please enter victim information.") st)
  else if victimEthAddress_rejected victimEthAddress
  then (None, setError (Some "Please enter a valid Ethereum/Polygon address (starts with 0x and is 42 characters long).") st)
  else
    match userId st with
    | Some uid =>
        if negb (Js.truthy uid)
        then (None, setError (Some "Authentication not ready. Please wait a moment or refresh.") st)
        else if negb (Js.truthy FASTAPI_BACKEND_URL)
        then (None, setError (Some "Backend URL is not defined.") st)
        else
          let body :=
            {| body_postContent := postContent; body_victimInfo := victimInfo;
               body_userId := uid; body_postLink := postLink;
               body_victimEthAddress := victimEthAddress |} in
          (Some body,
           (updateProcessingState true
            ;> set_log []
            ;> setError (Some "")
            ;> setStatus "Initiating initial analysis via FastAPI backend..."
            ;> addLog now "Sending flag post request to backend..."
            ;> fetch (PostFlagPost body)) st)
    | None =>
        (None, setError (Some "Authentication not ready. Please wait a moment or refresh.") st)
    end.

(** The [catch] block. *)
Definition handleFlagPost_catch (now message : string) : State -> State :=
  setError (Some ("Error during initial processing: " +:+ message))
  ;> addLog now ("Error during initial processing: " +:+ message)
  ;> setStatus "Error during initial processing.".

(** The [finally] block: the victim address input is not touched. *)
Definition handleFlagPost_finally : State -> State :=
  updateProcessingState false
  ;> set_postContentInput ""
  ;> set_postLinkInput ""
  ;> set_victimInfoInput "".

(** From the reply to the end of the handler. *)
Definition handleFlagPost_resume (now : string) (reply : FlagReply)
  : State -> State :=
  match reply with
  | FlagOk data json =>
      addLog now ("Initial Analysis Backend Response: " +:+ json)
      ;> setStatus (Js.or_default (data_message data) "Initial analysis complete.")
      ;> cond (match data_case_details data with
               | Some d =>
                   negb (String.eqb (case_status d) "Case Closed - No Violation")
               | None => false
               end)
           (set_currentCaseIdForCourtroom (data_case_id data)
            ;> set_showCourtroom true
            ;> setStatus "Violation detected. Courtroom session commencing!"
            ;> addLog now ("Violation detected, showing courtroom for case: "
                           +:+ default "undefined" (data_case_id data))
            ;> renderAppUI now)
           (setStatus "No violation detected. Case closed."
            ;> addLog now "No violation detected. Case closed.")
  | FlagNotOk detail http_status json =>
      handleFlagPost_catch now
        (Js.or_default detail
           ("Backend responded with status " +:+ http_status +:+ ": " +:+ json))
  | FlagThrow message => handleFlagPost_catch now message
  end
  ;> handleFlagPost_finally.

(** A whole invocation, begun at [now] and resumed at [later]: the reply is
    only consumed when a request was sent. *)
Definition handleFlagPost (now : string) (reply : FlagReply) (later : string)
  : State -> State :=
  fun st =>
    match handleFlagPost_begin now st with
    | (Some _, st') => handleFlagPost_resume later reply st'
    | (None, st') => st'
    end.

(** *** [startCourtroomSession] *)

Inductive StartReply : Type :=
| StartOk (message : option string)
| StartNotOk (detail : option string)
| StartThrow (message : string).

Definition startCourtroomSession_begin (now : string) (st : State)
  : option string * State :=
  match currentCaseIdForCourtroom (appState st) with
  | Some caseId =>
      if negb (Js.truthy caseId)
      then (None, setError (Some "No case selected to start courtroom session.") st)
      else
        (Some caseId,
         (setStatus "Starting courtroom session..."
          ;> addLog now ("Requesting backend to start courtroom for Case ID: " +:+ caseId)
          ;> set_startCourtroomButton_disabled true
          ;> fetch (PostStartCourtroomSession caseId)) st)
  | None =>
      (None, setError (Some "No case selected to start courtroom session.") st)
  end.

Definition startCourtroomSession_catch (now message : string) : State -> State :=
  setError (Some ("Error starting courtroom session: " +:+ message))
  ;> addLog now ("Error starting courtroom session: " +:+ message)
  ;> set_court_status "ERROR"
  ;> set_error_message (Some message)
  ;> renderCourtroomSessionState now.

Definition startCourtroomSession_resume (now : string) (reply : StartReply)
  : State -> State :=
  match reply with
  | StartOk message =>
      addLog now ("Backend response: " +:+ default "undefined" message)
      ;> setStatus "Courtroom session initialized on backend. Awaiting updates..."
      ;> set_court_status "STARTING"
      ;> renderCourtroomSessionState now
      ;> startCourtroomPolling now
  | StartNotOk detail =>
      startCourtroomSession_catch now
        (Js.or_default detail "Failed to start courtroom session on backend.")
  | StartThrow message => startCourtroomSession_catch now message
  end
  ;> set_startCourtroomButton_disabled false.

(** *** [fetchCourtroomUpdates], the interval callback *)

(** What the awaited [fetch] and [response.json()] produce: a 2xx reply
    with a snapshot of the shape of [courtroomSessionState] (so that
    rendering it raises nothing), another status with the [detail] of its
    body if any, or an exception with its message. *)
Inductive UpdatesReply : Type :=
| UpdatesOk (data : CourtroomSessionState)
| UpdatesNotOk (detail : option string)
| UpdatesThrow (message : string).

(** Up to the first [await]: returns the case identifier the request was
    issued for, or [None] when the function returned at once. *)
Definition fetchCourtroomUpdates_begin (st : State) : option string * State :=
  match currentCaseIdForCourtroom (appState st) with
  | Some caseId =>
      if negb (Js.truthy caseId) then (None, st)
      else (Some caseId, fetch (GetCourtroomUpdates caseId) st)
  | None => (None, st)
  end.

(** From the reply to the end of the function. *)
Definition fetchCourtroomUpdates_resume (caseId now : string)
    (reply : UpdatesReply) : State -> State :=
  match reply with
  | UpdatesOk data =>
      with_session (fun _ => data)
      ;> renderCourtroomSessionState now
      ;> cond (is_terminal (court_status data))
           (stop_polling
            ;> addLog now ("Courtroom session for " +:+ caseId
                           +:+ " ended with status: " +:+ court_status data)
            ;> setStatus ("Courtroom session concluded: " +:+ court_status data))
           skip
  | UpdatesNotOk detail =>
      setError (Some (Js.or_default detail "Failed to fetch courtroom updates."))
      ;> addLog now ("Failed to fetch courtroom updates: "
                     +:+ Js.or_default detail "Unknown error")
      ;> stop_polling
      ;> set_court_status "ERROR"
      ;> set_error_message (Some (Js.or_default detail "Failed to fetch updates."))
      ;> renderCourtroomSessionState now
  | UpdatesThrow message =>
      setError (Some ("Network error fetching courtroom updates: " +:+ message))
      ;> addLog now ("Network error fetching courtroom updates: " +:+ message)
      ;> stop_polling
      ;> set_court_status "ERROR"
      ;> set_error_message (Some message)
      ;> renderCourtroomSessionState now
  end.

(** One whole poll: the request and the handling of its reply. *)
Definition fetchCourtroomUpdates (now : string) (reply : UpdatesReply)
  : State -> State :=
  fun st =>
    match fetchCourtroomUpdates_begin st with
    | (Some caseId, st') => fetchCourtroomUpdates_resume caseId now reply st'
    | (None, st') => st'
    end.

(** The message attached to the session by a failed poll. *)
Definition failure_message (reply : UpdatesReply) : option string :=
  match reply with
  | UpdatesOk _ => None
  | UpdatesNotOk detail => Some (Js.or_default detail "Failed to fetch updates.")
  | UpdatesThrow message => Some message
  end.

Definition poll_failed (reply : UpdatesReply) : bool :=
  match reply with
  | UpdatesOk _ => false
  | _ => true
  end.

(** *** [resetCourtroomSessionView] *)

Definition resetCourtroomSessionView (now : string) : State -> State :=
  stop_polling
  ;> set_showCourtroom false
  ;> set_currentCaseIdForCourtroom None
  ;> with_session (fun _ => idle_session)
  ;> setError None
  ;> setStatus "Idle"
  ;> renderAppUI now
  ;> renderCourtroomSessionState now
  ;> addLog now "Courtroom session view reset.".

(** *** The popup as an event-driven system *)

(** The [REPORT_POST] message listener. *)
Definition onReportPost (now : string) (postContent sourceUrl : option string)
  : State -> State :=
  set_postContentInput (Js.or_default postContent "")
  ;> set_postLinkInput (Js.or_default sourceUrl "")
  ;> addLog now ("Received flagged post content from "
                 +:+ default "undefined" sourceUrl).

(** The browser runs the callback of interval [i] only while it is set. *)
Definition timer_fires (i : positive) (st : State) : State :=
  if bool_decide (i ∈ intervals st)
  then snd (fetchCourtroomUpdates_begin st)
  else st.

Inductive FormField : Type :=
| PostContentField | PostLinkField | VictimInfoField | VictimEthAddressField.

Definition user_types (f : FormField) (text : string) : State -> State :=
  match f with
  | PostContentField => set_postContentInput text
  | PostLinkField => set_postLinkInput text
  | VictimInfoField => set_victimInfoInput text
  | VictimEthAddressField => set_victimEthAddressInput text
  end.

(** Everything that can run a piece of [script.js] after start-up. *)
Inductive Event : Type :=
| TimerFires (i : positive)
| UpdatesArrive (caseId now : string) (reply : UpdatesReply)
| FlagClicked (now : string)
| FlagReplyArrives (now : string) (reply : FlagReply)
| StartClicked (now : string)
| StartReplyArrives (now : string) (reply : StartReply)
| ResetClicked (now : string)
| SnapshotArrives (now : string) (docs : list Doc)
| SnapshotFails (now message : string)
| UserSignedIn (now uid : string)
| ReportPost (now : string) (postContent sourceUrl : option string)
| UserTypes (f : FormField) (text : string).

Definition step (e : Event) : State -> State :=
  match e with
  | TimerFires i => timer_fires i
  | UpdatesArrive caseId now reply => fetchCourtroomUpdates_resume caseId now reply
  | FlagClicked now => fun st => snd (handleFlagPost_begin now st)
  | FlagReplyArrives now reply => handleFlagPost_resume now reply
  | StartClicked now => fun st => snd (startCourtroomSession_begin now st)
  | StartReplyArrives now reply => startCourtroomSession_resume now reply
  | ResetClicked now => resetCourtroomSessionView now
  | SnapshotArrives now docs => onSnapshot now docs
  | SnapshotFails now message => onSnapshotError now message
  | UserSignedIn now uid => onAuthUser now uid
  | ReportPost now c u => onReportPost now c u
  | UserTypes f text => user_types f text
  end.

Definition run (evs : list Event) (st : State) : State :=
  fold_left (fun s e => step e s) evs st.

(** [appState] as declared, the page as [popup.html] ships it, nothing
    scheduled and nothing sent. *)
Definition initial_state : State := {|
  appState := {|
    status := "Idle"; log := []; isProcessing := false; cases := [];
    error := Some ""; showCourtroom := false;
    currentCaseIdForCourtroom := None;
    courtroomSessionState := idle_session |};
  page := {|
    form := {| postContentInput := ""; postLinkInput := "";
               victimInfoInput := ""; victimEthAddressInput := "";
               flagPostButton_processing := false |};
    main := {| logDisplay := []; currentStatusSpan := "Idle";
               userIdDisplay := "Loading..."; casesTableBody := [];
               errorDisplay_hidden := true; errorMessageSpan := "";
               mainContentArea_hidden := false |};
    court := {| courtroomSessionArea_hidden := true;
                courtroomCaseIdDisplay := "";
                courtroomCurrentPhaseDisplay := "IDLE";
                agentPanels := []; courtroomTranscriptContent := [];
                finalVerdictDisplay_hidden := true;
                startCourtroomButton_hidden := false;
                resetCourtroomButton_hidden := true;
                startCourtroomButton_disabled := false |} |};
  userId := None;
  courtroomPollingInterval := None;
  intervals := ∅;
  next_interval := 1%positive;
  network := []
|}.

(** The message a rejected flagging form shows: the first failing check of
    content, victim information and victim address decides. *)
Definition field_error (st : State) : string :=
  if negb (Js.truthy (Js.trim (postContentInput (form (page st)))))
  then "Please enter the post content."
  else if negb (Js.truthy (Js.trim (victimInfoInput (form (page st)))))
  then "Please enter victim information."
  else "Please enter a valid Ethereum/Polygon address (starts with 0x and is 42 characters long).".

(** The state [startCourtroomPolling] leaves, field by field. *)
Definition polling_started (now : string) (st : State) : State :=
  let log' : list string :=
    (log (appState st)
     ++ [now +:+ ": " +:+ "Started polling for courtroom updates."])%list in
  {| appState :=
       {| status := status (appState st); log := log';
          isProcessing := isProcessing (appState st);
          cases := cases (appState st); error := error (appState st);
          showCourtroom := showCourtroom (appState st);
          currentCaseIdForCourtroom := currentCaseIdForCourtroom (appState st);
          courtroomSessionState := courtroomSessionState (appState st) |};
     page :=
       {| form := form (page st);
          main :=
            {| logDisplay := log';
               currentStatusSpan := currentStatusSpan (main (page st));
               userIdDisplay := userIdDisplay (main (page st));
               casesTableBody := casesTableBody (main (page st));
               errorDisplay_hidden := errorDisplay_hidden (main (page st));
               errorMessageSpan := errorMessageSpan (main (page st));
               mainContentArea_hidden := mainContentArea_hidden (main (page st)) |};
          court := court (page st) |};
     userId := userId st;
     courtroomPollingInterval := Some (next_interval st);
     intervals :=
       {[next_interval st]} ∪
       match courtroomPollingInterval st with
       | Some i => intervals st ∖ {[i]}
       | None => intervals st
       end;
     next_interval := Pos.succ (next_interval st);
     network := network st |}.

(** The state [renderCourtroomSessionState] leaves, field by field. *)
Definition rendered (now : string) (st : State) : State :=
  let state := courtroomSessionState (appState st) in
  let terminal := is_terminal (court_status state) in
  let idle := String.eqb (court_status state) "IDLE" in
  let restart :=
    showCourtroom (appState st) && negb terminal
    && Js.is_null (courtroomPollingInterval st) in
  let log' : list string :=
    if restart
    then (log (appState st)
          ++ [now +:+ ": " +:+ "Started polling for courtroom updates."])%list
    else log (appState st) in
  {| appState :=
       {| status := status (appState st); log := log';
          isProcessing := isProcessing (appState st);
          cases := cases (appState st); error := error (appState st);
          showCourtroom := showCourtroom (appState st);
          currentCaseIdForCourtroom := currentCaseIdForCourtroom (appState st);
          courtroomSessionState := state |};
     page :=
       {| form := form (page st);
          main :=
            {| logDisplay := if restart then log' else logDisplay (main (page st));
               currentStatusSpan := currentStatusSpan (main (page st));
               userIdDisplay := userIdDisplay (main (page st));
               casesTableBody := casesTableBody (main (page st));
               errorDisplay_hidden := errorDisplay_hidden (main (page st));
               errorMessageSpan := errorMessageSpan (main (page st));
               mainContentArea_hidden := mainContentArea_hidden (main (page st)) |};
          court :=
            {| courtroomSessionArea_hidden :=
                 courtroomSessionArea_hidden (court (page st));
               courtroomCaseIdDisplay := courtroomCaseIdDisplay (court (page st));
               courtroomCurrentPhaseDisplay :=
                 Js.replace_underscores (court_status state);
               agentPanels := render_agent_panels state;
               courtroomTranscriptContent :=
                 map transcript_className (transcript state);
               finalVerdictDisplay_hidden := Js.is_null (final_verdict state);
               startCourtroomButton_hidden :=
                 if terminal then true else negb idle;
               resetCourtroomButton_hidden := negb terminal;
               startCourtroomButton_disabled :=
                 startCourtroomButton_disabled (court (page st)) |} |};
     userId := userId st;
     courtroomPollingInterval :=
       if terminal then None
       else if restart then Some (next_interval st)
       else courtroomPollingInterval st;
     intervals :=
       if terminal
       then match courtroomPollingInterval st with
            | Some i => intervals st ∖ {[i]}
            | None => intervals st
            end
       else if restart then {[next_interval st]} ∪ intervals st
       else intervals st;
     next_interval :=
       if restart then Pos.succ (next_interval st) else next_interval st;
     network := network st |}.

(** The handle variable and the browser agree: the only interval scheduled,
    if any, is the one [courtroomPollingInterval] holds. *)
Definition intervals_tracked (st : State) : Prop :=
  intervals st =
    match courtroomPollingInterval st with
    | Some i => {[i]}
    | None => ∅
    end.

(** Requests made by [fetchCourtroomUpdates]. *)
Definition is_poll (r : Request) : bool :=
  match r with
  | GetCourtroomUpdates _ => true
  | _ => false
  end.

(** Events that neither reset the view, nor start a session, nor report a
    phase in progress. *)
Definition keeps_session (e : Event) : bool :=
  match e with
  | ResetClicked _ => false
  | StartReplyArrives _ (StartOk _) => false
  | UpdatesArrive _ _ (UpdatesOk d) => is_terminal (court_status d)
  | _ => true
  end.

(** The session is over and nothing polls. *)
Definition polling_off (st : State) : Prop :=
  is_terminal (court_status (courtroomSessionState (appState st))) = true
  /\ courtroomPollingInterval st = None
  /\ intervals st = ∅.

(** The verdict panel shows what the session state holds. *)
Definition verdict_panel_in_sync (st : State) : Prop :=
  finalVerdictDisplay_hidden (court (page st)) =
    Js.is_null (final_verdict (courtroomSessionState (appState st))).

(** The state compared by everything except the activity log and its
    rendering. *)
Definition forget_log : State -> State :=
  set_log [] ;> set_logDisplay [].

(** *** Sample runs *)

Definition sample_time : string := "10:00:00".

Definition sample_flag_reply : FlagReply :=
  FlagOk {| data_message := Some "Case recorded";
            data_case_id := Some "c1";
            data_case_details := Some {| case_status := "Under Review" |} |}
         "{case_id: c1, case_details: {status: Under Review}}".

(** A signed-in user flags a post and the backend finds a violation: the
    courtroom view is shown for case [c1]. *)
Definition flagged_history : list Event :=
  [UserSignedIn sample_time "user-1";
   UserTypes PostContentField "you are worthless";
   UserTypes VictimInfoField "alice";
   FlagClicked sample_time;
   FlagReplyArrives sample_time sample_flag_reply].

Definition flagged_state : State := run flagged_history initial_state.

(** Then the session of case [c1] is started and polled. *)
Definition started_history : list Event :=
  flagged_history
  ++ [StartClicked sample_time;
      StartReplyArrives sample_time (StartOk (Some "started"))].

Definition started_state : State := run started_history initial_state.

Definition sample_verdict : FinalVerdict := {|
  verdict_type := "Guilty";
  final_fine_eth := "0.05";
  final_ban_status := "Temporary";
  explanation := "Harassment established.";
  final_compensation_eth := "0.02";
  social_score := 40;
  social_score_explanation := "Repeated abuse."
|}.

Definition in_progress_snapshot : CourtroomSessionState := {|
  court_status := "JURY_DELIBERATION";
  current_turn_agent := Some "Court Judge";
  transcript := [];
  jury_deliberation_history := [];
  jury_votes := ∅;
  final_verdict := None;
  error_message := None;
  agents_status := ∅
|}.

Definition completed_snapshot : CourtroomSessionState := {|
  court_status := "COMPLETED";
  current_turn_agent := None;
  transcript := [];
  jury_deliberation_history := [];
  jury_votes := ∅;
  final_verdict := Some sample_verdict;
  error_message := None;
  agents_status := ∅
|}.

(** A snapshot that carries a verdict while the status is still a phase in
    progress. *)
Definition verdict_while_deliberating : CourtroomSessionState := {|
  court_status := "JURY_DELIBERATION";
  current_turn_agent := Some "Court Judge";
  transcript := [];
  jury_deliberation_history := [];
  jury_votes := ∅;
  final_verdict := Some sample_verdict;
  error_message := None;
  agents_status := ∅
|}.

Definition sample_doc (id : string) : Doc :=
  {| doc_id := id; doc_data := {[ "status" := JString "Under Review" ]} |}.

(** A filled form whose address field holds a malformed address. *)
Definition bad_address_state : State :=
  run [UserSignedIn sample_time "user-1";
       UserTypes PostContentField "you are worthless";
       UserTypes VictimInfoField "alice";
       UserTypes VictimEthAddressField "0x123"]
    initial_state.

(** A filled form with a well-formed address, ready to be sent. *)
Definition ready_state : State :=
  run [UserSignedIn sample_time "user-1";
       UserTypes PostContentField "you are worthless";
       UserTypes PostLinkField "https://example.org/post/1";
       UserTypes VictimInfoField "alice";
       UserTypes VictimEthAddressField
         "0x00112233445566778899aAbBcCdDeEfF00112233"]
    initial_state.

(** U+00A0 NO-BREAK SPACE and U+2003 EM SPACE, as their UTF-8 bytes. *)
Definition nbsp : string := String "194" (String "160" "").
Definition em_space : string := String "226" (String "128" (String "131" "")).

(** A form whose content field holds nothing but white space. *)
Definition blank_content_state : State :=
  run [UserSignedIn sample_time "user-1";
       UserTypes PostContentField (nbsp +:+ " " +:+ em_space);
       UserTypes VictimInfoField "alice"]
    initial_state.

(** A valid form whose fields are padded with white space of several
    kinds. *)
Definition padded_state : State :=
  run [UserSignedIn sample_time "user-1";
       UserTypes PostContentField (nbsp +:+ "you are worthless ");
       UserTypes PostLinkField (" https://example.org/post/1" +:+ em_space);
       UserTypes VictimInfoField ("alice" +:+ nbsp);
       UserTypes VictimEthAddressField
         (nbsp +:+ "0x00112233445566778899aAbBcCdDeEfF00112233" +:+ nbsp)]
    initial_state.

(** *** Further observations on the popup *)

(** The elements outside the courtroom area show what [appState] holds:
    the log, the status line, the cases table and the error banner. *)
Definition main_view_in_sync (st : State) : Prop :=
  logDisplay (main (page st)) = log (appState st)
  /\ currentStatusSpan (main (page st)) = status (appState st)
  /\ casesTableBody (main (page st)) = cases (appState st)
  /\ errorDisplay_hidden (main (page st))
     = negb (Js.truthy_opt (error (appState st)))
  /\ errorMessageSpan (main (page st))
     = (if Js.truthy_opt (error (appState st))
        then default "" (error (appState st))
        else "").

(** Exactly one of the two top-level views is visible, as [showCourtroom]
    says. *)
Definition one_view_visible (st : State) : Prop :=
  mainContentArea_hidden (main (page st)) = showCourtroom (appState st)
  /\ courtroomSessionArea_hidden (court (page st))
     = negb (showCourtroom (appState st)).

(** What [renderCourtroomSessionState] draws for a session state. *)
Definition courtroom_view_of (state : CourtroomSessionState)
    (v : CourtroomView) : Prop :=
  courtroomCurrentPhaseDisplay v = Js.replace_underscores (court_status state)
  /\ agentPanels v = render_agent_panels state
  /\ courtroomTranscriptContent v = map transcript_className (transcript state)
  /\ finalVerdictDisplay_hidden v = Js.is_null (final_verdict state)
  /\ startCourtroomButton_hidden v
     = (if is_terminal (court_status state) then true
        else negb (String.eqb (court_status state) "IDLE"))
  /\ resetCourtroomButton_hidden v = negb (is_terminal (court_status state)).

(** While the courtroom area is shown, it draws the current session state
    and names the bound case. *)
Definition courtroom_in_sync (st : State) : Prop :=
  courtroomSessionArea_hidden (court (page st)) = false ->
  courtroom_view_of (courtroomSessionState (appState st)) (court (page st))
  /\ courtroomCaseIdDisplay (court (page st))
     = default "" (currentCaseIdForCourtroom (appState st)).

(** Whether a reply to [/flag_post] takes the violation branch. *)
Definition reports_violation (reply : FlagReply) : bool :=
  match reply with
  | FlagOk data _ =>
      match data_case_details data with
      | Some d => negb (String.eqb (case_status d) "Case Closed - No Violation")
      | None => false
      end
  | _ => false
  end.

(** The message the [catch] block of [handleFlagPost] receives. *)
Definition flag_failure_message (reply : FlagReply) : option string :=
  match reply with
  | FlagOk _ _ => None
  | FlagNotOk detail http_status json =>
      Some (Js.or_default detail
              ("Backend responded with status " +:+ http_status +:+ ": " +:+ json))
  | FlagThrow message => Some message
  end.

(** The message the [catch] block of [startCourtroomSession] receives. *)
Definition start_failure_message (reply : StartReply) : option string :=
  match reply with
  | StartOk _ => None
  | StartNotOk detail =>
      Some (Js.or_default detail "Failed to start courtroom session on backend.")
  | StartThrow message => Some message
  end.

(** The request body [handleFlagPost] builds from the form. *)
Definition flag_body (st : State) : FlagPostBody :=
  {| body_postContent := Js.trim (postContentInput (form (page st)));
     body_victimInfo := Js.trim (victimInfoInput (form (page st)));
     body_userId := default "" (userId st);
     body_postLink := Js.trim (postLinkInput (form (page st)));
     body_victimEthAddress := Js.trim (victimEthAddressInput (form (page st))) |}.

(** All four checks of [handleFlagPost] pass. *)
Definition flag_form_valid (st : State) : bool :=
  Js.truthy (Js.trim (postContentInput (form (page st))))
  && Js.truthy (Js.trim (victimInfoInput (form (page st))))
  && victimEthAddress_accepted
       (Js.trim (victimEthAddressInput (form (page st))))
  && Js.truthy_opt (userId st).

(** What the ledger mirror has no business with: session, binding, view
    switch, polling, requests and the form. *)
Definition outside_mirror (st : State)
  : CourtroomSessionState * option string * bool * option positive
    * gset positive * list Request * FlagForm * CourtroomView :=
  (courtroomSessionState (appState st),
   currentCaseIdForCourtroom (appState st),
   showCourtroom (appState st),
   courtroomPollingInterval st,
   intervals st,
   network st,
   form (page st),
   court (page st)).

(** A signed-in popup with nothing typed yet. *)
Definition signed_in_state : State :=
  run [UserSignedIn sample_time "user-1"] initial_state.

Definition no_violation_reply : FlagReply :=
  FlagOk {| data_message := Some "Case recorded";
            data_case_id := Some "c2";
            data_case_details :=
              Some {| case_status := "Case Closed - No Violation" |} |}
         "{case_id: c2, case_details: {status: Case Closed - No Violation}}".

(** A document whose data carry an [id] field of their own. *)
Definition doc_with_own_id : Doc :=
  {| doc_id := "firestore-key";
     doc_data := {[ "id" := JString "case-7"; "status" := JString "Closed" ]} |}.

End Popup.

(** ** The ledger contract: [CyberLawLedger.sol] *)

Module Ledger.

(** [struct Case]. Unsigned 256-bit fields and addresses are naturals; the
    contract does no arithmetic on them, only comparisons. *)
Record Case : Type := {
  caseId : string;
  postHash : string;
  victimAddress : N;
  violationType : string;
  councilDecision : string;
  penaltyAmountWei : N;
  banStatus : string;
  decisionExplanation : string;
  compensationToVictimWei : N;
  socialScore : N;
  fineCollected : bool;
  compensationDistributed : bool;
  timestamp : N
}.

(** The value a Solidity mapping yields for a key never written. *)
Definition zero_case : Case := {|
  caseId := ""; postHash := ""; victimAddress := 0; violationType := "";
  councilDecision := ""; penaltyAmountWei := 0; banStatus := "";
  decisionExplanation := ""; compensationToVictimWei := 0; socialScore := 0;
  fineCollected := false; compensationDistributed := false; timestamp := 0
|}.

(** Contract storage and the contract's balance. *)
Record Contract : Type := {
  cases : gmap string Case;
  caseIds : list string;
  balance : N
}.

(** [cases[_caseId]] *)
Definition case_at (s : Contract) (_caseId : string) : Case :=
  default zero_case (cases s !! _caseId).

Definition deployed : Contract :=
  {| cases := ∅; caseIds := []; balance := 0 |}.

Definition set_fineCollected (c : Case) : Case :=
  {| caseId := caseId c; postHash := postHash c;
     victimAddress := victimAddress c; violationType := violationType c;
     councilDecision := councilDecision c;
     penaltyAmountWei := penaltyAmountWei c; banStatus := banStatus c;
     decisionExplanation := decisionExplanation c;
     compensationToVictimWei := compensationToVictimWei c;
     socialScore := socialScore c;
     fineCollected := true;
     compensationDistributed := compensationDistributed c;
     timestamp := timestamp c |}.

Definition set_compensationDistributed (c : Case) : Case :=
  {| caseId := caseId c; postHash := postHash c;
     victimAddress := victimAddress c; violationType := violationType c;
     councilDecision := councilDecision c;
     penaltyAmountWei := penaltyAmountWei c; banStatus := banStatus c;
     decisionExplanation := decisionExplanation c;
     compensationToVictimWei := compensationToVictimWei c;
     socialScore := socialScore c;
     fineCollected := fineCollected c;
     compensationDistributed := true;
     timestamp := timestamp c |}.

(** Arguments of [recordCase]. *)
Record RecordCaseArgs : Type := {
  _caseId : string;
  _postHash : string;
  _victimAddress : N;
  _violationType : string;
  _councilDecision : string;
  _penaltyAmountWei : N;
  _banStatus : string;
  _decisionExplanation : string;
  _compensationToVictimWei : N;
  _socialScore : N
}.

(** [recordCase]; [None] is a revert. [block_timestamp] is [block.timestamp]. *)
Definition recordCase (block_timestamp : N) (a : RecordCaseArgs) (s : Contract)
  : option Contract :=
  if negb (timestamp (case_at s (_caseId a)) =? 0)%N then None
  else
    Some {|
      cases :=
        <[ _caseId a :=
           {| caseId := _caseId a; postHash := _postHash a;
              victimAddress := _victimAddress a;
              violationType := _violationType a;
              councilDecision := _councilDecision a;
              penaltyAmountWei := _penaltyAmountWei a;
              banStatus := _banStatus a;
              decisionExplanation := _decisionExplanation a;
              compensationToVictimWei := _compensationToVictimWei a;
              socialScore := _socialScore a;
              fineCollected := false;
              compensationDistributed := false;
              timestamp := block_timestamp |} ]> (cases s);
      caseIds := caseIds s ++ [_caseId a];
      balance := balance s
    |}.

(** [payFine], called with [msg.value = msg_value]. The value sent stays in
    the contract when the call succeeds. *)
Definition payFine (id : string) (msg_value : N) (s : Contract)
  : option Contract :=
  let currentCase := case_at s id in
  if (timestamp currentCase =? 0)%N then None
  else if fineCollected currentCase then None
  else if (msg_value <? penaltyAmountWei currentCase)%N then None
  else
    Some {| cases := <[ id := set_fineCollected currentCase ]> (cases s);
            caseIds := caseIds s;
            balance := (balance s + msg_value)%N |}.

(** A call into the contract. The low-level [call] of
    [distributeCompensation] hands control to the victim's address before
    the flag is written: [accepted] is the [success] it returns, and
    [reentrant] are the calls its code makes back into the ledger while it
    runs (each in a frame of its own, so a failing one changes nothing). *)
#[local] Unset Elimination Schemes.
Inductive Call : Type :=
| RecordCase (a : RecordCaseArgs)
| PayFine (id : string) (msg_value : N)
| DistributeCompensation (id : string) (accepted : bool) (reentrant : list Call).
#[local] Set Elimination Schemes.

Definition write_compensationDistributed (id : string) (s : Contract) : Contract :=
  {| cases := <[ id := set_compensationDistributed (case_at s id) ]> (cases s);
     caseIds := caseIds s;
     balance := balance s |}.

Definition debit (amount : N) (s : Contract) : Contract :=
  {| cases := cases s; caseIds := caseIds s;
     balance := (balance s - amount)%N |}.

(** Runs one call inside a transaction of the block with the given
    timestamp; [None] is a revert of that call. *)
Fixpoint exec (block_timestamp : N) (c : Call) (s : Contract) : option Contract :=
  match c with
  | RecordCase a => recordCase block_timestamp a s
  | PayFine id msg_value => payFine id msg_value s
  | DistributeCompensation id accepted reentrant =>
      let currentCase := case_at s id in
      if (timestamp currentCase =? 0)%N then None
      else if negb (fineCollected currentCase) then None
      else if compensationDistributed currentCase then None
      else if (balance s <? compensationToVictimWei currentCase)%N then None
      else if negb accepted then None
      else
        let during :=
          (fix calls (cs : list Call) (s0 : Contract) : Contract :=
             match cs with
             | [] => s0
             | c' :: cs' =>
                 calls cs' (default s0 (exec block_timestamp c' s0))
             end) reentrant (debit (compensationToVictimWei currentCase) s) in
        Some (write_compensationDistributed id during)
  end.

(** The same loop, named: the victim's calls in order, failures skipped. *)
Definition exec_all (block_timestamp : N) (cs : list Call) (s : Contract)
  : Contract :=
  fold_left (fun s0 c => default s0 (exec block_timestamp c s0)) cs s.

(** States the contract can be in: after deployment, and after any
    successful transaction. *)
Inductive reachable : Contract -> Prop :=
| reachable_deployed : reachable deployed
| reachable_call (s s' : Contract) (block_timestamp : N) (c : Call) :
    reachable s -> exec block_timestamp c s = Some s' -> reachable s'.

(** The invariant of the two flags, for one case and for the storage. *)
Definition flags_ok (c : Case) : Prop :=
  compensationDistributed c = true -> fineCollected c = true.

Definition ledger_ok (s : Contract) : Prop :=
  forall id : string, flags_ok (case_at s id).

(** A case that exists and whose fine is collected. *)
Definition fine_settled (s : Contract) (id : string) : Prop :=
  timestamp (case_at s id) <> 0%N /\ fineCollected (case_at s id) = true.

(** What every call is shown to preserve: the invariant of the flags, and
    for each case the fact that it exists with its fine collected. *)
Definition call_preserves (c : Call) : Prop :=
  forall (ts : N) (s s' : Contract),
    exec ts c s = Some s' ->
    (ledger_ok s -> ledger_ok s')
    /\ (forall id, fine_settled s id -> fine_settled s' id).

(** Induction over calls, through the calls made on re-entry. *)
Section CallInduction.
Variable P : Call -> Prop.
Hypothesis P_record : forall a, P (RecordCase a).
Hypothesis P_pay : forall id v, P (PayFine id v).
Hypothesis P_distribute :
  forall id accepted reentrant,
    Forall P reentrant -> P (DistributeCompensation id accepted reentrant).

Fixpoint Call_nested_ind (c : Call) : P c :=
  match c with
  | RecordCase a => P_record a
  | PayFine id v => P_pay id v
  | DistributeCompensation id accepted reentrant =>
      P_distribute id accepted reentrant
        ((fix all (cs : list Call) : Forall P cs :=
            match cs with
            | [] => @List.Forall_nil Call P
            | c' :: cs' =>
                @List.Forall_cons Call P c' cs' (Call_nested_ind c') (all cs')
            end) reentrant)
  end.
End CallInduction.

(** *** A sample run *)

Definition sample_case : RecordCaseArgs := {|
  _caseId := "c1"; _postHash := "9f2c"; _victimAddress := 42;
  _violationType := "Harassment"; _councilDecision := "Guilty";
  _penaltyAmountWei := 100; _banStatus := "Temporary";
  _decisionExplanation := "Harassment established.";
  _compensationToVictimWei := 40; _socialScore := 40
|}.

Definition recorded : Contract :=
  default deployed (exec 1000 (RecordCase sample_case) deployed).

Definition paid : Contract :=
  default recorded (exec 1010 (PayFine "c1" 100) recorded).

Definition compensated : Contract :=
  default paid (exec 1020 (DistributeCompensation "c1" true []) paid).

(** *** Further observations on the ledger *)

(** [getCase]: the thirteen fields of [cases[_caseId]], as a record. *)
Definition getCase (s : Contract) (id : string) : Case := case_at s id.

(** [getAllCaseIds] *)
Definition getAllCaseIds (s : Contract) : list string := caseIds s.

(** The fields of a case that [recordCase] fixes. *)
Definition terms (c : Case)
  : string * string * N * string * string * N * string * string * N * N * N :=
  (caseId c, postHash c, victimAddress c, violationType c, councilDecision c,
   penaltyAmountWei c, banStatus c, decisionExplanation c,
   compensationToVictimWei c, socialScore c, timestamp c).

(** A recorded case keeps its terms, and its flags only ever go up. *)
Definition case_settles (before after : Case) : Prop :=
  terms after = terms before
  /\ (fineCollected before = true -> fineCollected after = true)
  /\ (compensationDistributed before = true ->
      compensationDistributed after = true).

Definition call_keeps_records (c : Call) : Prop :=
  forall (ts : N) (s s' : Contract),
    exec ts c s = Some s' ->
    forall id : string,
      timestamp (case_at s id) <> 0%N ->
      case_settles (case_at s id) (case_at s' id).

(** Every stored case is listed and stored under its own identifier. *)
Definition listed (s : Contract) : Prop :=
  forall (id : string) (c : Case),
    cases s !! id = Some c -> id ∈ caseIds s /\ caseId c = id.

(** [s'] comes from [s] by zero or more successful transactions. *)
Inductive evolves : Contract -> Contract -> Prop :=
| evolves_refl (s : Contract) : evolves s s
| evolves_call (s s1 s' : Contract) (block_timestamp : N) (c : Call) :
    evolves s s1 -> exec block_timestamp c s1 = Some s' -> evolves s s'.

(** The case [recordCase] stores for its arguments. *)
Definition new_case (block_timestamp : N) (a : RecordCaseArgs) : Case :=
  {| caseId := _caseId a; postHash := _postHash a;
     victimAddress := _victimAddress a;
     violationType := _violationType a;
     councilDecision := _councilDecision a;
     penaltyAmountWei := _penaltyAmountWei a;
     banStatus := _banStatus a;
     decisionExplanation := _decisionExplanation a;
     compensationToVictimWei := _compensationToVictimWei a;
     socialScore := _socialScore a;
     fineCollected := false;
     compensationDistributed := false;
     timestamp := block_timestamp |}.

Definition call_keeps_listing (c : Call) : Prop :=
  forall (ts : N) (s s' : Contract),
    exec ts c s = Some s' -> listed s -> listed s'.

End Ledger.

(** * Properties *)

#[local] Set Warnings "-clear-no-such-hyp".
Local Open Scope list_scope.

(** ** The address pattern *)

Section RegexFacts.
Import Regex.

Lemma test_Void (s : string) : test Void s = false.
Proof. induction s as [|c s IH]; [reflexivity | exact IH]. Qed.

Lemma test_Eps (s : string) :
  test Eps s = match s with EmptyString => true | String _ _ => false end.
Proof. destruct s; [reflexivity | apply test_Void]. Qed.

Lemma test_Alt (s : string) :
  forall r1 r2, test (Alt r1 r2) s = test r1 s || test r2 s.
Proof.
  induction s as [|c s IH]; intros r1 r2; [reflexivity|].
  cbn [test deriv]. apply IH.
Qed.

Lemma test_Seq_Void (s : string) : forall r, test (Seq Void r) s = false.
Proof.
  induction s as [|c s IH]; intros r; [reflexivity|].
  cbn [test deriv nullable]. rewrite test_Alt, IH, test_Void. reflexivity.
Qed.

Lemma test_Seq_Eps (r : regex) (s : string) : test (Seq Eps r) s = test r s.
Proof.
  destruct s as [|c s]; [reflexivity|].
  cbn [test deriv nullable]. rewrite test_Alt, test_Seq_Void. reflexivity.
Qed.

(** A pattern that starts with one literal character. *)
Lemma test_Seq_Chr (a : ascii) (r : regex) (s : string) :
  test (Seq (Chr a) r) s =
    match s with
    | EmptyString => false
    | String c s' => Ascii.eqb a c && test r s'
    end.
Proof.
  destruct s as [|c s]; [reflexivity|].
  cbn [test deriv nullable]. rewrite test_Alt, test_Void, orb_false_r.
  destruct (Ascii.eqb a c); [apply test_Seq_Eps | apply test_Seq_Void].
Qed.

(** A pattern that starts with one character of a class. *)
Lemma test_Seq_Class (rs : list (ascii * ascii)) (r : regex) (s : string) :
  test (Seq (Class rs) r) s =
    match s with
    | EmptyString => false
    | String c s' => in_class rs c && test r s'
    end.
Proof.
  destruct s as [|c s]; [reflexivity|].
  cbn [test deriv nullable]. rewrite test_Alt, test_Void, orb_false_r.
  destruct (in_class rs c); [apply test_Seq_Eps | apply test_Seq_Void].
Qed.

(** [[...]{n}] accepts the strings of [n] characters of the class. *)
Lemma test_times_Class (rs : list (ascii * ascii)) (n : nat) :
  forall s : string,
    test (times n (Class rs)) s = true <->
    length (list_ascii_of_string s) = n
    /\ Forall (fun c => in_class rs c = true) (list_ascii_of_string s).
Proof.
  induction n as [|n IH]; intros s; cbn [times].
  - rewrite test_Eps. destruct s as [|c s]; cbn.
    + split; [intros _; split; [reflexivity | constructor] | reflexivity].
    + split; [discriminate | intros [H _]; discriminate].
  - rewrite test_Seq_Class. destruct s as [|c s]; cbn [list_ascii_of_string].
    + split; [discriminate | intros [H _]; discriminate].
    + rewrite andb_true_iff, IH, Forall_cons. cbn [length].
      split; [intros (Hc & Hl & Hf) | intros (Hl & Hc & Hf)]; repeat split;
        auto; congruence.
Qed.
End RegexFacts.

(** The three ranges of the class are the twenty-two hexadecimal digits. *)
Lemma hex_class_digits (c : ascii) :
  Regex.in_class [("a", "f"); ("A", "F"); ("0", "9")]%char c = true
  <-> is_hex_digit c.
Proof.
  unfold is_hex_digit.
  assert (Hb : Regex.in_class [("a", "f"); ("A", "F"); ("0", "9")]%char c
               = existsb (Ascii.eqb c) hex_digits).
  { destruct c as [[] [] [] [] [] [] [] []]; vm_compute; reflexivity. }
  rewrite Hb, existsb_exists. split.
  - intros (x & Hin & Heq). apply Ascii.eqb_eq in Heq. subst x. exact Hin.
  - intros Hin. exists c. split; [exact Hin | apply Ascii.eqb_refl].
Qed.

(** [/^0x[a-fA-F0-9]{40}$/.test(s)] holds exactly for the well-formed
    addresses. *)
Lemma address_pattern_spec (s : string) :
  Regex.test address_pattern s = true <-> well_formed_address s.
Proof.
  unfold address_pattern, well_formed_address.
  rewrite test_Seq_Chr.
  destruct s as [|c1 s].
  { split; [discriminate | intros (d & H & _); discriminate]. }
  rewrite test_Seq_Chr.
  destruct s as [|c2 s].
  { rewrite andb_false_r.
    split; [discriminate | intros (d & H & _); cbn in H; inversion H]. }
  rewrite !andb_true_iff, !Ascii.eqb_eq, test_times_Class.
  split.
  - intros (H1 & H2 & Hl & Hf). subst c1 c2.
    exists (list_ascii_of_string s). rewrite string_of_list_ascii_of_string.
    repeat split; [exact Hl|].
    eapply Forall_impl; [exact Hf|]. intros c Hc. apply hex_class_digits, Hc.
  - intros (d & Heq & Hl & Hf). cbn in Heq. injection Heq as H1 H2 H3.
    subst c1 c2 s. change ("" +:+ string_of_list_ascii d) with (string_of_list_ascii d).
    rewrite list_ascii_of_string_of_list_ascii.
    repeat split; [exact Hl|].
    eapply Forall_impl; [exact Hf|]. intros c Hc. apply hex_class_digits, Hc.
Qed.

(** ** Reasoning about handlers *)

#[global] Arguments Popup.render_agent_panels : simpl never.

(** Evaluates the status tests on the literals the handlers assign. *)
Ltac eval_status_tests :=
  change (Popup.is_terminal "ERROR") with true;
  change (Popup.is_terminal "COMPLETED") with true;
  change (Popup.is_terminal "IDLE") with false;
  change (Popup.is_terminal "STARTING") with false;
  change (String.eqb "ERROR" "IDLE") with false;
  change (String.eqb "STARTING" "IDLE") with false;
  change (String.eqb "IDLE" "IDLE") with true.

(** Reduces field updates and record projections, leaving strings, lists,
    sets and the tests on them untouched. *)
Ltac reduce_fields :=
  lazy beta iota zeta delta
    [Popup.rendered Popup.polling_started
     Popup.fetch Popup.clearInterval Popup.setInterval
     Popup.with_appState Popup.with_page Popup.with_form Popup.with_main
     Popup.with_court Popup.with_session
     Popup.set_log Popup.set_app_status Popup.set_isProcessing
     Popup.set_cases Popup.set_app_error Popup.set_showCourtroom
     Popup.set_currentCaseIdForCourtroom Popup.set_court_status
     Popup.set_error_message Popup.set_courtroomPollingInterval
     Popup.set_userId Popup.set_logDisplay Popup.set_currentStatusSpan
     Popup.set_userIdDisplay Popup.set_casesTableBody Popup.set_errorDisplay
     Popup.set_mainContentArea_hidden Popup.set_courtroomSessionArea_hidden
     Popup.set_courtroomCaseIdDisplay Popup.set_courtroom_contents
     Popup.set_finalVerdictDisplay_hidden Popup.set_buttons_hidden
     Popup.set_startCourtroomButton_disabled
     Popup.set_flagPostButton_processing Popup.set_postContentInput
     Popup.set_postLinkInput Popup.set_victimInfoInput
     Popup.set_victimEthAddressInput
     Popup.appState Popup.page Popup.userId Popup.courtroomPollingInterval
     Popup.intervals Popup.next_interval Popup.network
     Popup.form Popup.main Popup.court
     Popup.status Popup.log Popup.isProcessing Popup.cases Popup.error
     Popup.showCourtroom Popup.currentCaseIdForCourtroom
     Popup.courtroomSessionState
     Popup.court_status Popup.current_turn_agent Popup.transcript
     Popup.jury_deliberation_history Popup.jury_votes Popup.final_verdict
     Popup.error_message Popup.agents_status
     Popup.postContentInput Popup.postLinkInput Popup.victimInfoInput
     Popup.victimEthAddressInput Popup.flagPostButton_processing
     Popup.logDisplay Popup.currentStatusSpan Popup.userIdDisplay
     Popup.casesTableBody Popup.errorDisplay_hidden Popup.errorMessageSpan
     Popup.mainContentArea_hidden
     Popup.courtroomSessionArea_hidden Popup.courtroomCaseIdDisplay
     Popup.courtroomCurrentPhaseDisplay Popup.agentPanels
     Popup.courtroomTranscriptContent Popup.finalVerdictDisplay_hidden
     Popup.startCourtroomButton_hidden Popup.resetCourtroomButton_hidden
     Popup.startCourtroomButton_disabled
     Js.is_null fst snd negb andb orb].

Ltac reduce_state := reduce_fields; eval_status_tests; reduce_fields.

(** Splits on the first test met, then reduces again. *)
Ltac split_tests :=
  repeat match goal with
         | |- context [match ?x with _ => _ end] =>
             lazymatch x with
             | context [match _ with _ => _ end] => fail
             | _ => destruct x eqn:?
             end; reduce_state
         end.

(** Opens a state into its fields. *)
Ltac open_state st :=
  destruct st as
    [ [? ? ? ? ? ? ? [? ? ? ? ? ? ? ?]]
      [ [? ? ? ? ?] [? ? ? ? ? ? ?] [? ? ? ? ? ? ? ? ?] ]
      ? ? ? ? ? ].

Section ClosedForms.
Import Popup.

Lemma startCourtroomPolling_eq (now : string) (st : State) :
  startCourtroomPolling now st = polling_started now st.
Proof.
  open_state st. unfold startCourtroomPolling, addLog, renderLog, seq.
  reduce_state. split_tests; reflexivity.
Qed.

Lemma renderCourtroomSessionState_eq (now : string) (st : State) :
  renderCourtroomSessionState now st = rendered now st.
Proof.
  open_state st.
  unfold renderCourtroomSessionState, stop_polling, seq, skip, cond.
  reduce_state. split_tests; rewrite ?startCourtroomPolling_eq;
    reduce_state; reflexivity.
Qed.
End ClosedForms.

(** Runs a handler symbolically: unfolds it down to field updates, replaces
    the two rendering steps by their closed forms and reduces. *)
Ltac run_handlers :=
  lazy beta iota zeta delta
    [Popup.handleFlagPost Popup.handleFlagPost_begin
     Popup.handleFlagPost_resume Popup.handleFlagPost_catch
     Popup.handleFlagPost_finally Popup.startCourtroomSession_begin
     Popup.startCourtroomSession_resume Popup.startCourtroomSession_catch
     Popup.fetchCourtroomUpdates Popup.fetchCourtroomUpdates_begin
     Popup.fetchCourtroomUpdates_resume Popup.resetCourtroomSessionView
     Popup.timer_fires Popup.step
     Popup.onSnapshot Popup.onSnapshotError Popup.onAuthUser
     Popup.onReportPost Popup.user_types Popup.renderAppUI
     Popup.stop_polling Popup.setError Popup.setStatus Popup.addLog
     Popup.updateProcessingState Popup.renderError Popup.renderStatus
     Popup.renderLog Popup.renderUserId Popup.renderCasesTable
     Popup.forget_log Popup.seq Popup.skip Popup.cond
     Popup.rendered Popup.polling_started
     Popup.fetch Popup.clearInterval Popup.setInterval
     Popup.with_appState Popup.with_page Popup.with_form Popup.with_main
     Popup.with_court Popup.with_session
     Popup.set_log Popup.set_app_status Popup.set_isProcessing
     Popup.set_cases Popup.set_app_error Popup.set_showCourtroom
     Popup.set_currentCaseIdForCourtroom Popup.set_court_status
     Popup.set_error_message Popup.set_courtroomPollingInterval
     Popup.set_userId Popup.set_logDisplay Popup.set_currentStatusSpan
     Popup.set_userIdDisplay Popup.set_casesTableBody Popup.set_errorDisplay
     Popup.set_mainContentArea_hidden Popup.set_courtroomSessionArea_hidden
     Popup.set_courtroomCaseIdDisplay Popup.set_courtroom_contents
     Popup.set_finalVerdictDisplay_hidden Popup.set_buttons_hidden
     Popup.set_startCourtroomButton_disabled
     Popup.set_flagPostButton_processing Popup.set_postContentInput
     Popup.set_postLinkInput Popup.set_victimInfoInput
     Popup.set_victimEthAddressInput
     Popup.appState Popup.page Popup.userId Popup.courtroomPollingInterval
     Popup.intervals Popup.next_interval Popup.network
     Popup.form Popup.main Popup.court
     Popup.status Popup.log Popup.isProcessing Popup.cases Popup.error
     Popup.showCourtroom Popup.currentCaseIdForCourtroom
     Popup.courtroomSessionState
     Popup.court_status Popup.current_turn_agent Popup.transcript
     Popup.jury_deliberation_history Popup.jury_votes Popup.final_verdict
     Popup.error_message Popup.agents_status
     Popup.postContentInput Popup.postLinkInput Popup.victimInfoInput
     Popup.victimEthAddressInput Popup.flagPostButton_processing
     Popup.logDisplay Popup.currentStatusSpan Popup.userIdDisplay
     Popup.casesTableBody Popup.errorDisplay_hidden Popup.errorMessageSpan
     Popup.mainContentArea_hidden
     Popup.courtroomSessionArea_hidden Popup.courtroomCaseIdDisplay
     Popup.courtroomCurrentPhaseDisplay Popup.agentPanels
     Popup.courtroomTranscriptContent Popup.finalVerdictDisplay_hidden
     Popup.startCourtroomButton_hidden Popup.resetCourtroomButton_hidden
     Popup.startCourtroomButton_disabled
     Js.is_null fst snd negb andb orb];
  repeat (progress
            (rewrite ?renderCourtroomSessionState_eq, ?startCourtroomPolling_eq);
          reduce_state).

(** ** [trim] against the white-space code points *)

Section TrimFacts.

Lemma white_space_checked :
  List.forallb
    (fun hi =>
       List.forallb
         (fun lo =>
            let cp := (256 * hi + lo)%N in
            Bool.eqb (negb (Js.truthy (Js.trim (Js.utf8 cp))))
              (List.existsb (N.eqb cp) Js.white_space))
         (List.map N.of_nat (List.seq 0 256)))
    (List.map N.of_nat (List.seq 0 256))
  = true.
Proof. vm_compute. reflexivity. Qed.

Lemma in_bytes (n : N) :
  (n < 256)%N -> In n (List.map N.of_nat (List.seq 0 256)).
Proof.
  intros H. apply List.in_map_iff. exists (N.to_nat n).
  split; [apply N2Nat.id|]. apply List.in_seq. lia.
Qed.

(** Of the code points below U+10000, [trim] removes exactly the white
    space of ECMAScript: a string of one code point trims to the empty
    string if and only if the code point is one of [Js.white_space]. *)
Theorem trim_removes_exactly_white_space (cp : N) :
  (cp < 65536)%N ->
  Js.trim (Js.utf8 cp) = "" <-> In cp Js.white_space.
Proof.
  intros Hcp.
  pose proof (proj1 (List.forallb_forall _ _) white_space_checked (cp / 256)%N
                (in_bytes _ (N.Div0.div_lt_upper_bound cp 256 256 Hcp))) as H.
  cbv beta in H.
  pose proof (proj1 (List.forallb_forall _ _) H (cp mod 256)%N
                (in_bytes _ (N.mod_lt cp 256 ltac:(discriminate)))) as H'.
  cbv beta zeta in H'. clear H.
  replace (256 * (cp / 256) + cp mod 256)%N with cp in H'
    by (apply N.div_mod; lia).
  apply Bool.eqb_prop in H'.
  assert (Hex : List.existsb (N.eqb cp) Js.white_space = true
                <-> In cp Js.white_space).
  { rewrite List.existsb_exists. split.
    - intros (x & Hx & He). apply N.eqb_eq in He. subst x. exact Hx.
    - intros Hx. exists cp. split; [exact Hx | apply N.eqb_refl]. }
  rewrite <- Hex, <- H'.
  destruct (Js.trim (Js.utf8 cp)); cbn; split; congruence.
Qed.

(** Leading white space goes, whatever follows it. *)
Lemma trim_start_skips_white_space (cp : N) (s : string) :
  In cp Js.white_space ->
  Js.trim_start (Js.utf8 cp +:+ s) = Js.trim_start s.
Proof.
  intros H. repeat (destruct H as [<- | H]; [reflexivity|]). destruct H.
Qed.
End TrimFacts.

Section FlagPost.
Import Popup.

(** C6. When the post content or the victim information is empty after
    trimming, [handleFlagPost] returns at once with the error of the first
    empty field and gives nothing to [fetch]; the invocation as a whole
    issues no request whatever reply might have come. *)
Theorem flag_empty_fields_no_request (now : string) (st : State) :
  Js.trim (postContentInput (form (page st))) = ""
  \/ Js.trim (victimInfoInput (form (page st))) = "" ->
  let st' := snd (handleFlagPost_begin now st) in
  fst (handleFlagPost_begin now st) = None
  /\ network st' = network st
  /\ error (appState st') =
       Some (if Js.truthy (Js.trim (postContentInput (form (page st))))
             then "Please enter victim information."
             else "Please enter the post content.")
  /\ forall reply later,
       network (handleFlagPost now reply later st) = network st.
Proof.
  intros H. unfold handleFlagPost. unfold handleFlagPost_begin.
  destruct (Js.truthy (Js.trim (postContentInput (form (page st))))) eqn:Hc;
    cbn [negb].
  - destruct H as [H | H]; [rewrite H in Hc; discriminate|].
    rewrite H. cbn. repeat split.
  - cbn. repeat split.
Qed.

(** C5. The check of line 388 lets the (trimmed) address [s] pass exactly
    when [s] is empty or is [0x] followed by exactly forty hexadecimal
    digits; any other value makes [handleFlagPost] return with a
    field-specific error before anything is given to [fetch]. *)
Theorem victim_address_validation (s : string) :
  (victimEthAddress_accepted s = true <-> s = "" \/ well_formed_address s)
  /\ forall (now : string) (st : State),
       Js.trim (victimEthAddressInput (form (page st))) = s ->
       victimEthAddress_accepted s = false ->
       fst (handleFlagPost_begin now st) = None
       /\ network (snd (handleFlagPost_begin now st)) = network st
       /\ error (appState (snd (handleFlagPost_begin now st)))
          = Some (field_error st).
Proof.
  split.
  - unfold victimEthAddress_accepted, victimEthAddress_rejected.
    destruct s as [|c s]; cbn [Js.truthy andb negb].
    + split; [intros _; left; reflexivity | reflexivity].
    + rewrite negb_involutive, address_pattern_spec.
      split; [intros H; right; exact H | intros [H | H]; [discriminate | exact H]].
  - intros now st Hs Hrej.
    unfold victimEthAddress_accepted in Hrej.
    apply negb_false_iff in Hrej.
    unfold handleFlagPost_begin, field_error. rewrite Hs, Hrej.
    destruct (negb (Js.truthy (Js.trim (postContentInput (form (page st))))));
      [cbn; repeat split|].
    destruct (negb (Js.truthy (Js.trim (victimInfoInput (form (page st))))));
      cbn; repeat split.
Qed.

Lemma form_renderCourtroomSessionState (now : string) (st : State) :
  form (page (renderCourtroomSessionState now st)) = form (page st).
Proof.
  run_handlers. split_tests; reflexivity.
Qed.

Lemma form_handleFlagPost_resume (now : string) (reply : FlagReply) (st : State) :
  form (page (handleFlagPost_resume now reply st)) =
    {| postContentInput := ""; postLinkInput := ""; victimInfoInput := "";
       victimEthAddressInput := victimEthAddressInput (form (page st));
       flagPostButton_processing := false |}.
Proof.
  destruct reply as [data json | detail http json | message];
    run_handlers; split_tests; reflexivity.
Qed.

Lemma form_handleFlagPost_begin (now : string) (st : State) :
  victimEthAddressInput (form (page (snd (handleFlagPost_begin now st))))
  = victimEthAddressInput (form (page st)).
Proof.
  run_handlers. split_tests; reflexivity.
Qed.

(** An invocation stopped by validation returns before the [try] block and
    leaves the whole form as it is. *)
Lemma rejected_flag_keeps_form (now : string) (st : State) :
  fst (handleFlagPost_begin now st) = None ->
  form (page (snd (handleFlagPost_begin now st))) = form (page st).
Proof.
  revert now. run_handlers. intros now. split_tests;
    intros H; try discriminate H; reflexivity.
Qed.

(** C7. Whenever the form passes validation and the backend is called,
    then whatever comes back (a 2xx reply, another status, or a failure of
    the call), the handler ends with the content, link and victim
    information inputs empty and the victim address input as it was. *)
Theorem flag_clears_form_keeps_address
    (now later : string) (reply : FlagReply) (st : State) :
  fst (handleFlagPost_begin now st) <> None ->
  let st' := handleFlagPost now reply later st in
  postContentInput (form (page st')) = ""
  /\ postLinkInput (form (page st')) = ""
  /\ victimInfoInput (form (page st')) = ""
  /\ victimEthAddressInput (form (page st'))
     = victimEthAddressInput (form (page st)).
Proof.
  intros Hsent. cbn zeta. unfold handleFlagPost.
  pose proof (form_handleFlagPost_begin now st) as Hb.
  destruct (handleFlagPost_begin now st) as [[body|] st1]; [|contradiction].
  rewrite form_handleFlagPost_resume. cbn. repeat split. exact Hb.
Qed.
End FlagPost.

(** ** The courtroom session driver *)

Section Session.
Import Popup.

(** What a 2xx reply does, whatever the snapshot holds. *)
Lemma resume_ok_effect (caseId now : string) (data : CourtroomSessionState)
    (st : State) :
  let st' := fetchCourtroomUpdates_resume caseId now (UpdatesOk data) st in
  courtroomSessionState (appState st') = data
  /\ error (appState st') = error (appState st)
  /\ finalVerdictDisplay_hidden (court (page st'))
     = Js.is_null (final_verdict data)
  /\ courtroomPollingInterval st' =
       (if is_terminal (court_status data) then None
        else if showCourtroom (appState st)
                && Js.is_null (courtroomPollingInterval st)
        then Some (next_interval st)
        else courtroomPollingInterval st)
  /\ intervals st' =
       (if is_terminal (court_status data)
        then match courtroomPollingInterval st with
             | Some i => intervals st ∖ {[i]}
             | None => intervals st
             end
        else if showCourtroom (appState st)
                && Js.is_null (courtroomPollingInterval st)
        then {[next_interval st]} ∪ intervals st
        else intervals st)
  /\ network st' = network st.
Proof.
  run_handlers. split_tests; repeat split; reflexivity.
Qed.

(** What a failed poll does. *)
Lemma resume_failure_effect (caseId now : string) (reply : UpdatesReply)
    (st : State) :
  poll_failed reply = true ->
  let st' := fetchCourtroomUpdates_resume caseId now reply st in
  court_status (courtroomSessionState (appState st')) = "ERROR"
  /\ error_message (courtroomSessionState (appState st')) = failure_message reply
  /\ final_verdict (courtroomSessionState (appState st'))
     = final_verdict (courtroomSessionState (appState st))
  /\ finalVerdictDisplay_hidden (court (page st'))
     = Js.is_null (final_verdict (courtroomSessionState (appState st)))
  /\ courtroomPollingInterval st' = None
  /\ intervals st' =
       match courtroomPollingInterval st with
       | Some i => intervals st ∖ {[i]}
       | None => intervals st
       end
  /\ network st' = network st.
Proof.
  intros Hf.
  destruct reply as [data | detail | message]; [discriminate | |];
    run_handlers; split_tests; repeat split; reflexivity.
Qed.

Lemma timer_fires_idle (i : positive) (st : State) :
  intervals st = ∅ -> timer_fires i st = st.
Proof.
  intros H. unfold timer_fires. rewrite H.
  rewrite bool_decide_eq_false_2; [reflexivity | set_solver +].
Qed.

Lemma run_ticks_idle (ticks : list positive) (st : State) :
  intervals st = ∅ -> run (map TimerFires ticks) st = st.
Proof.
  intros H. induction ticks as [|i ticks IH]; [reflexivity|].
  cbn [map]. unfold run in *. cbn [fold_left step].
  rewrite (timer_fires_idle i st H). exact IH.
Qed.

Lemma tracked_cleared (st : State) :
  intervals_tracked st ->
  match courtroomPollingInterval st with
  | Some i => intervals st ∖ {[i]}
  | None => intervals st
  end = ∅.
Proof.
  unfold intervals_tracked. intros ->.
  destruct (courtroomPollingInterval st); set_solver +.
Qed.

(** C2, as the code has it. A 2xx reply is taken as it comes: the local
    session state becomes the snapshot, whatever its verdict and status
    say about each other, and no error is raised; the verdict panel is
    shown exactly when the snapshot carries a verdict; polling stops
    exactly when the status is COMPLETED or ERROR and otherwise goes on
    (being started if the courtroom is shown and no interval was set). *)
Theorem poll_accepts_every_snapshot
    (caseId now : string) (data : CourtroomSessionState) (st : State) :
  let st' := fetchCourtroomUpdates_resume caseId now (UpdatesOk data) st in
  courtroomSessionState (appState st') = data
  /\ error (appState st') = error (appState st)
  /\ finalVerdictDisplay_hidden (court (page st'))
     = Js.is_null (final_verdict data)
  /\ courtroomPollingInterval st' =
       (if is_terminal (court_status data) then None
        else if showCourtroom (appState st)
                && Js.is_null (courtroomPollingInterval st)
        then Some (next_interval st)
        else courtroomPollingInterval st).
Proof.
  destruct (resume_ok_effect caseId now data st)
    as (H1 & H2 & H3 & H4 & _). repeat split; assumption.
Qed.

(** C9. With no case identifier bound, a poll does nothing: no request
    is issued, and the state after it is the state before it, whatever
    reply might have been waiting and whichever timer fired. *)
Theorem poll_without_case_is_noop (st : State) :
  currentCaseIdForCourtroom (appState st) = None ->
  fetchCourtroomUpdates_begin st = (None, st)
  /\ (forall now reply, fetchCourtroomUpdates now reply st = st)
  /\ (forall i, timer_fires i st = st).
Proof.
  intros H. unfold timer_fires, fetchCourtroomUpdates, fetchCourtroomUpdates_begin.
  rewrite H. repeat split. intros i. destruct (bool_decide _); reflexivity.
Qed.
End Session.

(** ** Invariants of the popup *)

Section Invariants.
Import Popup.

Lemma step_tracked (e : Event) (st : State) :
  intervals_tracked st -> intervals_tracked (step e st).
Proof.
  unfold intervals_tracked.
  destruct e as [i | c now [d | d | m] | now | now [d j | d h j | m]
                | now | now [m | d | m] | now | now docs | now m | now uid
                | now c u | [ | | | ] text];
    run_handlers; intros H; rewrite ?H; split_tests;
    rewrite ?H; try reflexivity; try congruence; clear; set_solver +.
Qed.

Lemma step_in_sync (e : Event) (st : State) :
  verdict_panel_in_sync st -> verdict_panel_in_sync (step e st).
Proof.
  unfold verdict_panel_in_sync.
  destruct e as [i | c now [d | d | m] | now | now [d j | d h j | m]
                | now | now [m | d | m] | now | now docs | now m | now uid
                | now c u | [ | | | ] text];
    run_handlers; intros H; split_tests; try reflexivity; try exact H;
    try congruence.
Qed.

(** Every state the popup can reach from start-up keeps the handle
    variable in step with the scheduled intervals and the verdict panel
    in step with the session state. *)
Lemma reachable_invariants (evs : list Event) :
  intervals_tracked (run evs initial_state)
  /\ verdict_panel_in_sync (run evs initial_state).
Proof.
  unfold run. rewrite <- fold_left_rev_right.
  induction (rev evs) as [|e l [IH1 IH2]]; cbn [fold_right].
  - split; reflexivity.
  - split; [apply step_tracked, IH1 | apply step_in_sync, IH2].
Qed.

Lemma step_polling_off (e : Event) (st : State) :
  keeps_session e = true ->
  polling_off st ->
  polling_off (step e st)
  /\ filter is_poll (network (step e st)) = filter is_poll (network st).
Proof.
  unfold polling_off.
  destruct e as [i | c now [d | d | m] | now | now [d j | d h j | m]
                | now | now [m | d | m] | now | now docs | now m | now uid
                | now c u | [ | | | ] text];
    cbn [keeps_session]; intros Hk; try discriminate Hk;
    run_handlers; intros (Ht & Hv & Hi); rewrite ?Ht, ?Hv, ?Hi, ?Hk;
    reduce_state; rewrite ?Ht, ?Hv, ?Hi, ?Hk;
    split_tests; rewrite ?Ht, ?Hv, ?Hi, ?Hk; reduce_state;
    rewrite ?filter_app; cbn [filter is_poll]; rewrite ?app_nil_r;
    try (repeat split;
         (reflexivity || assumption || congruence || (clear; set_solver +))).
  all: try (exfalso; set_solver).
Qed.

(** Once the session is over and nothing polls, it stays so, and no poll
    request is issued, through every run of events that holds no reset, no
    started session and no snapshot of a phase in progress. *)
Lemma polling_stays_off (future : list Event) :
  forall st : State,
    forallb keeps_session future = true ->
    polling_off st ->
    polling_off (run future st)
    /\ filter is_poll (network (run future st)) = filter is_poll (network st).
Proof.
  induction future as [|e future IH]; intros st Hq Hoff; [split; auto|].
  cbn [forallb] in Hq. apply andb_true_iff in Hq. destruct Hq as [He Hq].
  destruct (step_polling_off e st He Hoff) as [Hoff' Hnet].
  destruct (IH (step e st) Hq Hoff') as [Hoff'' Hnet'].
  unfold run in *. cbn [fold_left]. split; [exact Hoff''|].
  rewrite Hnet'. exact Hnet.
Qed.

(** What the popup does achieve when a session ends. In every state it can
    reach: once the reply to a poll carries the status COMPLETED or ERROR,
    the handle variable is null and no interval is scheduled any more;
    whatever timer ticks follow, none runs the callback, so the state stays
    as it is and no request is added to those issued before. No poll
    request is issued through any later events either, as long as the view
    is not reset, no reply to a start request arrives and no reply to a
    poll reports a phase in progress. The last two can be replies to
    requests that were already on their way: see
    [late_reply_restarts_polling]. *)
Theorem terminal_snapshot_stops_polling
    (history : list Event) (caseId now : string)
    (data : CourtroomSessionState) :
  is_terminal (court_status data) = true ->
  let st := run history initial_state in
  let st' := fetchCourtroomUpdates_resume caseId now (UpdatesOk data) st in
  courtroomPollingInterval st' = None
  /\ intervals st' = ∅
  /\ (forall ticks : list positive,
        run (map TimerFires ticks) st' = st'
        /\ network (run (map TimerFires ticks) st') = network st)
  /\ (forall future : list Event,
        forallb keeps_session future = true ->
        filter is_poll (network (run future st'))
        = filter is_poll (network st)).
Proof.
  intros Hterm. cbn zeta.
  destruct (reachable_invariants history) as [Htr _].
  destruct (resume_ok_effect caseId now data (run history initial_state))
    as (Hd & _ & _ & Hv & Hi & Hn). cbn zeta in Hv, Hi.
  rewrite Hterm in Hv, Hi. rewrite (tracked_cleared _ Htr) in Hi.
  split; [exact Hv|]. split; [exact Hi|]. split.
  - intros ticks. rewrite (run_ticks_idle ticks _ Hi).
    split; [reflexivity | exact Hn].
  - intros future Hq. rewrite <- Hn.
    apply (polling_stays_off future _ Hq).
    unfold polling_off. rewrite Hd. repeat split; assumption.
Qed.

(** C3. In every state the popup can reach, a poll that fails, by a
    rejected [fetch] or by a reply that is not 2xx, sets the local status
    to ERROR, attaches the failure message to the session state and
    clears the polling timer; the verdict panel is left as it was, so a
    hidden panel stays hidden. *)
Theorem failed_poll_forces_error
    (history : list Event) (caseId now : string) (reply : UpdatesReply) :
  poll_failed reply = true ->
  let st := run history initial_state in
  let st' := fetchCourtroomUpdates_resume caseId now reply st in
  court_status (courtroomSessionState (appState st')) = "ERROR"
  /\ (exists m : string,
        error_message (courtroomSessionState (appState st')) = Some m
        /\ failure_message reply = Some m)
  /\ courtroomPollingInterval st' = None
  /\ intervals st' = ∅
  /\ finalVerdictDisplay_hidden (court (page st'))
     = finalVerdictDisplay_hidden (court (page st)).
Proof.
  intros Hf. cbn zeta.
  destruct (reachable_invariants history) as [Htr Hsync].
  destruct (resume_failure_effect caseId now reply
              (run history initial_state) Hf)
    as (Hs & Hm & Hfv & Hh & Hv & Hi & _).
  cbn zeta in *. repeat split.
  - exact Hs.
  - destruct reply as [d | detail | message]; [discriminate | |];
      eexists; (split; [exact Hm | reflexivity]).
  - exact Hv.
  - rewrite Hi. exact (tracked_cleared _ Htr).
  - rewrite Hh. symmetry. exact Hsync.
Qed.
End Invariants.

(** ** Reset and the ledger mirror *)

Section ResetAndMirror.
Import Popup.

(** C4, as the code has it. [resetCourtroomSessionView] is total, and a
    second call in a row changes nothing but the activity log, which gains
    one entry per call; after any call the session is IDLE with an empty
    transcript, an empty agent-status map, no verdict and no error
    message, no case identifier is bound, and polling is stopped. *)
Theorem reset_idempotent_up_to_log (now1 now2 : string) (st : State) :
  let once := resetCourtroomSessionView now1 st in
  let twice := resetCourtroomSessionView now2 once in
  forget_log twice = forget_log once
  /\ log (appState twice)
     = (log (appState once)
        ++ [now2 +:+ ": Courtroom session view reset."])%list
  /\ court_status (courtroomSessionState (appState once)) = "IDLE"
  /\ transcript (courtroomSessionState (appState once)) = []
  /\ agents_status (courtroomSessionState (appState once)) = ∅
  /\ final_verdict (courtroomSessionState (appState once)) = None
  /\ error_message (courtroomSessionState (appState once)) = None
  /\ currentCaseIdForCourtroom (appState once) = None
  /\ courtroomPollingInterval once = None.
Proof.
  run_handlers. repeat split; reflexivity.
Qed.

(** The second of two resets in a row leaves a longer activity log. *)
Lemma reset_twice_differs :
  resetCourtroomSessionView sample_time
    (resetCourtroomSessionView sample_time initial_state)
  <> resetCourtroomSessionView sample_time initial_state.
Proof.
  intros H.
  apply (f_equal (fun s => length (log (appState s)))) in H.
  vm_compute in H. discriminate H.
Qed.

(** C8. Once the identity is known, the cache after two successive
    snapshots holds the records of the second one, in its order, and
    nothing of the first; the table shows the same rows. *)
Theorem ledger_snapshot_replaces_cache
    (now1 now2 : string) (S1 S2 : list Doc) (st : State) :
  Js.truthy_opt (userId st) = true ->
  let st' := onSnapshot now2 S2 (onSnapshot now1 S1 st) in
  cases (appState st') = map case_of_doc S2
  /\ casesTableBody (main (page st')) = map case_of_doc S2
  /\ (forall r, r ∈ cases (appState st') <-> exists d, d ∈ S2 /\ r = case_of_doc d).
Proof.
  intros Hu. cbn zeta.
  assert (Hc : cases (appState (onSnapshot now2 S2 (onSnapshot now1 S1 st)))
               = map case_of_doc S2
               /\ casesTableBody (main (page (onSnapshot now2 S2 (onSnapshot now1 S1 st))))
               = map case_of_doc S2).
  { revert Hu. run_handlers. intros Hu. rewrite Hu. reduce_state.
    rewrite Hu. reduce_state. split; reflexivity. }
  destruct Hc as [Hc Ht]. repeat split; [exact Hc | exact Ht | |].
  - rewrite Hc. intros Hr. apply list_elem_of_fmap in Hr.
    destruct Hr as (d & -> & Hd). exists d. split; [exact Hd | reflexivity].
  - rewrite Hc. intros (d & Hd & ->). apply list_elem_of_fmap.
    exists d. split; [reflexivity | exact Hd].
Qed.
End ResetAndMirror.

(** ** The ledger contract *)

Section LedgerFacts.
Import Ledger.

Lemma exec_distribute (ts : N) (id : string) (accepted : bool)
    (reentrant : list Call) (s : Contract) :
  exec ts (DistributeCompensation id accepted reentrant) s =
    let currentCase := case_at s id in
    if (timestamp currentCase =? 0)%N then None
    else if negb (fineCollected currentCase) then None
    else if compensationDistributed currentCase then None
    else if (balance s <? compensationToVictimWei currentCase)%N then None
    else if negb accepted then None
    else Some (write_compensationDistributed id
                 (exec_all ts reentrant
                    (debit (compensationToVictimWei currentCase) s))).
Proof.
  cbn [exec]. cbn zeta.
  repeat match goal with
         | |- context [if ?b then None else _] => destruct b; [reflexivity|]
         end.
  reflexivity.
Qed.

Lemma case_at_insert (s : Contract) (id id' : string) (c : Case)
    (ids : list string) (b : N) :
  case_at {| cases := <[id := c]> (cases s); caseIds := ids; balance := b |} id'
  = if decide (id = id') then c else case_at s id'.
Proof.
  unfold case_at. cbn [cases]. rewrite lookup_insert.
  destruct (decide (id = id')); reflexivity.
Qed.

Lemma recordCase_preserves (a : RecordCaseArgs) : call_preserves (RecordCase a).
Proof.
  intros ts s s' H. cbn [exec] in H. unfold recordCase in H.
  destruct (timestamp (case_at s (_caseId a)) =? 0)%N eqn:Hts;
    cbn [negb] in H; [|discriminate].
  injection H as <-. apply N.eqb_eq in Hts. split.
  - intros Hok id. rewrite case_at_insert.
    destruct (decide (_caseId a = id)); [|apply Hok].
    unfold flags_ok. cbn. discriminate.
  - intros id [Ht Hf]. unfold fine_settled. rewrite case_at_insert.
    destruct (decide (_caseId a = id)) as [He|]; [|split; assumption].
    exfalso. apply Ht. rewrite <- He. exact Hts.
Qed.

Lemma payFine_preserves (id : string) (v : N) : call_preserves (PayFine id v).
Proof.
  intros ts s s' H. cbn [exec] in H. unfold payFine in H. cbn zeta in H.
  destruct (timestamp (case_at s id) =? 0)%N eqn:Hts; [discriminate|].
  destruct (fineCollected (case_at s id)); [discriminate|].
  destruct (v <? penaltyAmountWei (case_at s id))%N; [discriminate|].
  injection H as <-. apply N.eqb_neq in Hts. split.
  - intros Hok id'. rewrite case_at_insert.
    destruct (decide (id = id')); [|apply Hok].
    unfold flags_ok. cbn. reflexivity.
  - intros id' [Ht Hf]. unfold fine_settled. rewrite case_at_insert.
    destruct (decide (id = id')) as [->|]; [|split; assumption].
    cbn. split; [exact Hts | reflexivity].
Qed.

Lemma exec_all_preserves (ts : N) (cs : list Call) :
  Forall call_preserves cs ->
  forall s : Contract,
    (ledger_ok s -> ledger_ok (exec_all ts cs s))
    /\ (forall id, fine_settled s id -> fine_settled (exec_all ts cs s) id).
Proof.
  induction 1 as [|c cs Hc _ IH]; intros s; [split; auto|].
  unfold exec_all in *. cbn [fold_left].
  destruct (exec ts c s) as [s1|] eqn:He; cbn [default].
  - destruct (Hc ts s s1 He) as [Hok Hfs]. destruct (IH s1) as [Hok' Hfs'].
    split; [intros H; apply Hok', Hok, H | intros id H; apply Hfs', Hfs, H].
  - apply IH.
Qed.

Lemma distribute_preserves (id : string) (accepted : bool)
    (reentrant : list Call) :
  Forall call_preserves reentrant ->
  call_preserves (DistributeCompensation id accepted reentrant).
Proof.
  intros Hre ts s s' H. rewrite exec_distribute in H. cbn zeta in H.
  destruct (timestamp (case_at s id) =? 0)%N eqn:Hts; [discriminate|].
  destruct (fineCollected (case_at s id)) eqn:Hfine; [|discriminate].
  destruct (compensationDistributed (case_at s id)); [discriminate|].
  destruct (balance s <? compensationToVictimWei (case_at s id))%N;
    [discriminate|].
  destruct accepted; [|discriminate].
  cbn [negb] in H. injection H as <-. apply N.eqb_neq in Hts.
  set (s1 := debit (compensationToVictimWei (case_at s id)) s).
  destruct (exec_all_preserves ts reentrant Hre s1) as [Hok Hfs].
  assert (Hsettled : fine_settled (exec_all ts reentrant s1) id).
  { apply Hfs. split; [exact Hts | exact Hfine]. }
  unfold write_compensationDistributed. split.
  - intros Hs id'. rewrite case_at_insert.
    destruct (decide (id = id')); [|apply Hok, Hs].
    unfold flags_ok. cbn. intros _. apply Hsettled.
  - intros id' Hid'. unfold fine_settled. rewrite case_at_insert.
    destruct (decide (id = id')) as [<-|]; [|apply Hfs, Hid'].
    cbn. exact Hsettled.
Qed.

Lemma every_call_preserves (c : Call) : call_preserves c.
Proof.
  induction c using Call_nested_ind.
  - apply recordCase_preserves.
  - apply payFine_preserves.
  - apply distribute_preserves. assumption.
Qed.

Lemma deployed_ok : ledger_ok deployed.
Proof. intros id. unfold flags_ok. cbn. discriminate. Qed.

Lemma reachable_ok (s : Contract) : reachable s -> ledger_ok s.
Proof.
  induction 1 as [|s s' ts c _ IH He]; [apply deployed_ok|].
  exact (proj1 (every_call_preserves c ts s s' He) IH).
Qed.

(** C10. In every state the contract can reach, through any sequence of
    [recordCase], [payFine] and [distributeCompensation] calls (re-entrant
    ones included), a case whose compensation is marked distributed has
    its fine marked collected. *)
Theorem compensation_implies_fine (s : Contract) (id : string) :
  reachable s ->
  compensationDistributed (case_at s id) = true ->
  fineCollected (case_at s id) = true.
Proof. intros Hr. exact (reachable_ok s Hr id). Qed.

Lemma compensated_reachable : reachable compensated.
Proof.
  apply (reachable_call paid _ 1020 (DistributeCompensation "c1" true []));
    [|vm_compute; reflexivity].
  apply (reachable_call recorded _ 1010 (PayFine "c1" 100));
    [|vm_compute; reflexivity].
  apply (reachable_call deployed _ 1000 (RecordCase sample_case));
    [|vm_compute; reflexivity].
  apply reachable_deployed.
Defined.

Lemma compensation_implies_fine_witness :
  reachable compensated
  /\ compensationDistributed (case_at compensated "c1") = true
  /\ fineCollected (case_at compensated "c1") = true.
Proof.
  split; [exact compensated_reachable|].
  split; [vm_compute; reflexivity|].
  apply (compensation_implies_fine compensated "c1");
    [exact compensated_reachable | vm_compute; reflexivity].
Defined.
End LedgerFacts.

(** ** The theorems at work on sample runs *)

Section Samples.
Import Popup.

Lemma terminal_snapshot_stops_polling_witness :
  is_terminal (court_status completed_snapshot) = true
  /\ let st := run started_history initial_state in
     let st' :=
       fetchCourtroomUpdates_resume "c1" sample_time
         (UpdatesOk completed_snapshot) st in
     courtroomPollingInterval st' = None
     /\ intervals st' = ∅
     /\ (forall ticks : list positive,
           run (map TimerFires ticks) st' = st'
           /\ network (run (map TimerFires ticks) st') = network st)
     /\ (forall future : list Event,
           forallb keeps_session future = true ->
           filter is_poll (network (run future st'))
           = filter is_poll (network st)).
Proof.
  assert (H : is_terminal (court_status completed_snapshot) = true)
    by reflexivity.
  exact (conj H (terminal_snapshot_stops_polling started_history "c1"
                   sample_time completed_snapshot H)).
Defined.

(** C1. The popup stops polling on a terminal snapshot, but not for good.
    Two ticks put two polls on their way; the reply to the second arrives
    first and reports COMPLETED, which clears the timer. The reply to the
    first then arrives, reporting a phase in progress:
    [fetchCourtroomUpdates] takes it as the session state and the render
    schedules a new interval (lines 293 to 295). Nobody has reset the view
    or started a session, and yet the next tick issues one more poll for
    the session that had ended. *)
Theorem late_reply_restarts_polling :
  let st1 :=
    run [TimerFires 2; TimerFires 2;
         UpdatesArrive "c1" sample_time (UpdatesOk completed_snapshot)]
      started_state in
  let later :=
    [UpdatesArrive "c1" sample_time (UpdatesOk in_progress_snapshot);
     TimerFires 3] in
  is_terminal (court_status completed_snapshot) = true
  /\ courtroomPollingInterval st1 = None
  /\ intervals st1 = ∅
  /\ filter is_poll (network st1)
     = [GetCourtroomUpdates "c1"; GetCourtroomUpdates "c1"]
  /\ court_status (courtroomSessionState (appState (run later st1)))
     = court_status in_progress_snapshot
  /\ courtroomPollingInterval (run later st1) = Some 3%positive
  /\ filter is_poll (network (run later st1))
     = filter is_poll (network st1) ++ [GetCourtroomUpdates "c1"].
Proof. vm_compute. repeat split; reflexivity. Qed.

(** C2, as stated, fails: a snapshot with a verdict and a status other
    than COMPLETED is taken as the session state, raises no error, shows
    the verdict panel and leaves the polling interval running. *)
Lemma verdict_without_completed_is_accepted :
  let st' :=
    fetchCourtroomUpdates sample_time
      (UpdatesOk verdict_while_deliberating) started_state in
  final_verdict verdict_while_deliberating <> None
  /\ court_status verdict_while_deliberating <> "COMPLETED"
  /\ courtroomSessionState (appState st') = verdict_while_deliberating
  /\ error (appState st') = error (appState started_state)
  /\ finalVerdictDisplay_hidden (court (page st')) = false
  /\ courtroomPollingInterval st' = Some 2%positive
  /\ intervals st' = {[2%positive]}.
Proof.
  cbn zeta. split; [discriminate|]. split; [discriminate|].
  vm_compute. repeat split; reflexivity.
Qed.

Lemma failed_poll_forces_error_witness :
  poll_failed (UpdatesThrow "Failed to fetch") = true
  /\ let st := run started_history initial_state in
     let st' :=
       fetchCourtroomUpdates_resume "c1" sample_time
         (UpdatesThrow "Failed to fetch") st in
     court_status (courtroomSessionState (appState st')) = "ERROR"
     /\ (exists m : string,
           error_message (courtroomSessionState (appState st')) = Some m
           /\ failure_message (UpdatesThrow "Failed to fetch") = Some m)
     /\ courtroomPollingInterval st' = None
     /\ intervals st' = ∅
     /\ finalVerdictDisplay_hidden (court (page st'))
        = finalVerdictDisplay_hidden (court (page st)).
Proof.
  assert (H : poll_failed (UpdatesThrow "Failed to fetch") = true)
    by reflexivity.
  exact (conj H (failed_poll_forces_error started_history "c1" sample_time
                   (UpdatesThrow "Failed to fetch") H)).
Defined.

Lemma victim_address_validation_witness :
  Js.trim (victimEthAddressInput (form (page bad_address_state))) = "0x123"
  /\ victimEthAddress_accepted "0x123" = false
  /\ fst (handleFlagPost_begin sample_time bad_address_state) = None
  /\ network (snd (handleFlagPost_begin sample_time bad_address_state))
     = network bad_address_state
  /\ error (appState (snd (handleFlagPost_begin sample_time bad_address_state)))
     = Some (field_error bad_address_state).
Proof.
  assert (H1 : Js.trim (victimEthAddressInput (form (page bad_address_state)))
               = "0x123") by (vm_compute; reflexivity).
  assert (H2 : victimEthAddress_accepted "0x123" = false)
    by (vm_compute; reflexivity).
  exact (conj H1 (conj H2
           (proj2 (victim_address_validation "0x123") sample_time
              bad_address_state H1 H2))).
Defined.

Lemma flag_empty_fields_no_request_witness :
  (Js.trim (postContentInput (form (page blank_content_state))) = ""
   \/ Js.trim (victimInfoInput (form (page blank_content_state))) = "")
  /\ let st' := snd (handleFlagPost_begin sample_time blank_content_state) in
     fst (handleFlagPost_begin sample_time blank_content_state) = None
     /\ network st' = network blank_content_state
     /\ error (appState st') =
          Some (if Js.truthy
                     (Js.trim (postContentInput (form (page blank_content_state))))
                then "Please enter victim information."
                else "Please enter the post content.")
     /\ forall reply later,
          network (handleFlagPost sample_time reply later blank_content_state)
          = network blank_content_state.
Proof.
  assert (H : Js.trim (postContentInput (form (page blank_content_state))) = ""
              \/ Js.trim (victimInfoInput (form (page blank_content_state))) = "")
    by (left; vm_compute; reflexivity).
  exact (conj H (flag_empty_fields_no_request sample_time blank_content_state H)).
Defined.

(** [trim] at work: white space of every length of encoding goes from both
    ends, and only from the ends. *)
Example trim_removes_unicode_space :
  Js.trim ("  alice" +:+ String "009" (String "010" "")) = "alice"
  /\ Js.trim (nbsp +:+ "alice" +:+ nbsp) = "alice"
  /\ Js.trim (em_space +:+ nbsp +:+ " ") = ""
  /\ Js.trim (" a" +:+ nbsp +:+ "b" +:+ em_space) = "a" +:+ nbsp +:+ "b"
  /\ Js.trim (String "239" (String "187" (String "191" "0x12"))) = "0x12".
Proof. vm_compute. repeat split; reflexivity. Qed.

(** A content field holding only a no-break space, a space and an em space
    counts as empty: the content message is shown, the form is not marked
    busy and nothing is sent. *)
Example blank_content_is_refused :
  let st' := snd (handleFlagPost_begin sample_time blank_content_state) in
  postContentInput (form (page blank_content_state))
  = nbsp +:+ " " +:+ em_space
  /\ fst (handleFlagPost_begin sample_time blank_content_state) = None
  /\ error (appState st') = Some "Please enter the post content."
  /\ errorDisplay_hidden (main (page st')) = false
  /\ isProcessing (appState st') = false
  /\ network st' = [].
Proof. vm_compute. repeat split; reflexivity. Qed.

(** Fields padded with white space are sent trimmed, and a well-formed
    address between two no-break spaces passes the check. *)
Example padded_fields_are_trimmed :
  fst (handleFlagPost_begin sample_time padded_state)
  = Some {| body_postContent := "you are worthless";
            body_victimInfo := "alice";
            body_userId := "user-1";
            body_postLink := "https://example.org/post/1";
            body_victimEthAddress :=
              "0x00112233445566778899aAbBcCdDeEfF00112233" |}.
Proof. vm_compute. reflexivity. Qed.

Lemma flag_clears_form_keeps_address_witness :
  fst (handleFlagPost_begin sample_time ready_state) <> None
  /\ let st' :=
       handleFlagPost sample_time sample_flag_reply sample_time ready_state in
     postContentInput (form (page st')) = ""
     /\ postLinkInput (form (page st')) = ""
     /\ victimInfoInput (form (page st')) = ""
     /\ victimEthAddressInput (form (page st'))
        = victimEthAddressInput (form (page ready_state)).
Proof.
  assert (H : fst (handleFlagPost_begin sample_time ready_state) <> None)
    by (vm_compute; discriminate).
  exact (conj H (flag_clears_form_keeps_address sample_time sample_time
                   sample_flag_reply ready_state H)).
Defined.

Lemma ledger_snapshot_replaces_cache_witness :
  Js.truthy_opt (userId flagged_state) = true
  /\ let st' :=
       onSnapshot sample_time [sample_doc "d"]
         (onSnapshot sample_time
            [sample_doc "a"; sample_doc "b"; sample_doc "c"] flagged_state) in
     cases (appState st') = map case_of_doc [sample_doc "d"]
     /\ casesTableBody (main (page st')) = map case_of_doc [sample_doc "d"]
     /\ (forall r, r ∈ cases (appState st')
                   <-> exists d, d ∈ [sample_doc "d"] /\ r = case_of_doc d).
Proof.
  assert (H : Js.truthy_opt (userId flagged_state) = true)
    by (vm_compute; reflexivity).
  exact (conj H (ledger_snapshot_replaces_cache sample_time sample_time
                   [sample_doc "a"; sample_doc "b"; sample_doc "c"]
                   [sample_doc "d"] flagged_state H)).
Defined.

Lemma poll_without_case_is_noop_witness :
  currentCaseIdForCourtroom (appState initial_state) = None
  /\ fetchCourtroomUpdates_begin initial_state = (None, initial_state)
  /\ (forall now reply, fetchCourtroomUpdates now reply initial_state = initial_state)
  /\ (forall i, timer_fires i initial_state = initial_state).
Proof.
  assert (H : currentCaseIdForCourtroom (appState initial_state) = None)
    by reflexivity.
  exact (conj H (poll_without_case_is_noop initial_state H)).
Defined.
End Samples.

(** ** Further properties of the popup *)

(** As [split_tests], also evaluating truthiness tests on the messages the
    handlers build. *)
Lemma truthy_prefixed (c : ascii) (s x : string) :
  Js.truthy (String c s +:+ x) = true.
Proof. reflexivity. Qed.

Ltac eval_truthy :=
  cbn [Js.truthy_opt Js.truthy from_option id] in *;
  rewrite ?truthy_prefixed in *.

Ltac split_tests_js :=
  eval_truthy;
  repeat (match goal with
          | |- context [match ?x with _ => _ end] =>
              lazymatch x with
              | context [match _ with _ => _ end] => fail
              | _ => destruct x eqn:?
              end
          end; reduce_state; eval_truthy).

(** The same, running on into the handlers a test had kept closed. *)
Ltac split_handlers :=
  eval_truthy;
  repeat (match goal with
          | |- context [match ?x with _ => _ end] =>
              lazymatch x with
              | context [match _ with _ => _ end] => fail
              | _ => destruct x eqn:?
              end
          end; run_handlers; eval_truthy).

Section PopupInvariants.
Import Popup.

Lemma step_main_view_in_sync (e : Event) (st : State) :
  main_view_in_sync st -> main_view_in_sync (step e st).
Proof.
  unfold main_view_in_sync.
  destruct e as [i | c now [d | d | m] | now | now [d j | d h j | m]
                | now | now [m | d | m] | now | now docs | now m | now uid
                | now c u | [ | | | ] text];
    run_handlers; intros (Hl & Hs & Hc & Hh & Hm);
    split_tests_js; repeat split; try assumption; try reflexivity;
    try congruence.
Qed.

Lemma step_one_view_visible (e : Event) (st : State) :
  one_view_visible st -> one_view_visible (step e st).
Proof.
  unfold one_view_visible.
  destruct e as [i | c now [d | d | m] | now | now [d j | d h j | m]
                | now | now [m | d | m] | now | now docs | now m | now uid
                | now c u | [ | | | ] text];
    run_handlers; intros (Hm & Ha);
    split_tests_js; repeat split; try assumption; try reflexivity;
    try congruence.
Qed.

Lemma step_courtroom_in_sync (e : Event) (st : State) :
  courtroom_in_sync st -> courtroom_in_sync (step e st).
Proof.
  unfold courtroom_in_sync, courtroom_view_of.
  destruct e as [i | c now [d | d | m] | now | now [d j | d h j | m]
                | now | now [m | d | m] | now | now docs | now m | now uid
                | now c u | [ | | | ] text];
    run_handlers; intros H;
    split_tests_js; try exact H; try (intros Hs; try discriminate Hs);
    try (repeat split; reflexivity);
    try (destruct (H Hs) as ((H1 & H2 & H3 & H4 & H5 & H6) & H7);
         repeat split;
         try (assumption || reflexivity || congruence);
         match goal with
         | E : currentCaseIdForCourtroom _ = _ |- _ =>
             rewrite E; eval_truthy; (assumption || reflexivity)
         end).
Qed.

Lemma run_invariant (P : State -> Prop) :
  P initial_state ->
  (forall e st, P st -> P (step e st)) ->
  forall history, P (run history initial_state).
Proof.
  intros H0 Hstep history. unfold run. rewrite <- fold_left_rev_right.
  induction (rev history) as [|e l IH]; cbn [fold_right]; auto.
Qed.

(** X2. In every state the popup can reach, the page outside the courtroom
    area shows what [appState] holds: the log, the status line, the cases
    table, and the error banner, which is hidden exactly when the error is
    null or empty. *)
Theorem main_view_reflects_state (history : list Event) :
  main_view_in_sync (run history initial_state).
Proof.
  apply run_invariant; [repeat split | apply step_main_view_in_sync].
Qed.

(** X3. In every state the popup can reach, exactly one of the flagging view
    and the courtroom view is visible, the courtroom view exactly when
    [showCourtroom] is set. *)
Theorem exactly_one_view_visible (history : list Event) :
  let st := run history initial_state in
  mainContentArea_hidden (main (page st))
  = negb (courtroomSessionArea_hidden (court (page st)))
  /\ courtroomSessionArea_hidden (court (page st))
     = negb (showCourtroom (appState st)).
Proof.
  cbn zeta.
  assert (H : one_view_visible (run history initial_state)).
  { apply run_invariant; [split; reflexivity | apply step_one_view_visible]. }
  destruct H as [Hm Ha]. rewrite Ha, Hm, negb_involutive. split; reflexivity.
Qed.

(** X4. In every state the popup can reach, while the courtroom area is shown
    it draws the current session state: phase label, agent panels,
    transcript, verdict panel and the two buttons are those
    [renderCourtroomSessionState] computes from it, and the case label is
    the bound case identifier. *)
Theorem courtroom_view_reflects_session (history : list Event) :
  let st := run history initial_state in
  courtroomSessionArea_hidden (court (page st)) = false ->
  courtroom_view_of (courtroomSessionState (appState st)) (court (page st))
  /\ courtroomCaseIdDisplay (court (page st))
     = default "" (currentCaseIdForCourtroom (appState st)).
Proof.
  cbn zeta. apply (run_invariant courtroom_in_sync);
    [intros H; discriminate H | apply step_courtroom_in_sync].
Qed.

(** X1. In every state the popup can reach, at most one interval is scheduled,
    and it is the one whose handle [courtroomPollingInterval] holds. *)
Theorem single_interval_scheduled (history : list Event) :
  let st := run history initial_state in
  intervals st = match courtroomPollingInterval st with
                 | Some i => {[i]}
                 | None => ∅
                 end
  /\ size (intervals st) <= 1.
Proof.
  cbn zeta. destruct (reachable_invariants history) as [Htr _].
  unfold intervals_tracked in Htr. split; [exact Htr|]. rewrite Htr.
  destruct (courtroomPollingInterval (run history initial_state)).
  - rewrite size_singleton. lia.
  - rewrite size_empty. lia.
Qed.
End PopupInvariants.


Section PopupHandlers.
Import Popup.

(** X14. [startCourtroomSession] with no case bound (null or empty) asks the
    backend nothing: it shows "No case selected..." and leaves the session
    state and the polling as they are. *)
Theorem start_without_case_rejected (now : string) (st : State) :
  Js.truthy_opt (currentCaseIdForCourtroom (appState st)) = false ->
  let st' := snd (startCourtroomSession_begin now st) in
  fst (startCourtroomSession_begin now st) = None
  /\ network st' = network st
  /\ error (appState st') = Some "No case selected to start courtroom session."
  /\ errorDisplay_hidden (main (page st')) = false
  /\ courtroomSessionState (appState st') = courtroomSessionState (appState st)
  /\ courtroomPollingInterval st' = courtroomPollingInterval st
  /\ intervals st' = intervals st.
Proof.
  revert now. run_handlers. intros now.
  split_tests_js; intros Ht; try discriminate Ht; try congruence;
    repeat split; reflexivity.
Qed.

Lemma start_without_case_rejected_witness :
  Js.truthy_opt (currentCaseIdForCourtroom (appState initial_state)) = false
  /\ let st' := snd (startCourtroomSession_begin sample_time initial_state) in
     fst (startCourtroomSession_begin sample_time initial_state) = None
     /\ network st' = network initial_state
     /\ error (appState st') = Some "No case selected to start courtroom session."
     /\ errorDisplay_hidden (main (page st')) = false
     /\ courtroomSessionState (appState st')
        = courtroomSessionState (appState initial_state)
     /\ courtroomPollingInterval st' = courtroomPollingInterval initial_state
     /\ intervals st' = intervals initial_state.
Proof.
  assert (H : Js.truthy_opt
                (currentCaseIdForCourtroom (appState initial_state)) = false)
    by reflexivity.
  exact (conj H (start_without_case_rejected sample_time initial_state H)).
Defined.

(** X15. When the backend accepts the start request, in any reachable state:
    the local status becomes STARTING, exactly one polling interval is
    scheduled and held by [courtroomPollingInterval], both buttons are
    hidden, the start button is enabled again, and the reply handling
    itself sends nothing. *)
Theorem start_success_begins_polling
    (history : list Event) (now : string) (message : option string) :
  let st := run history initial_state in
  let st' := startCourtroomSession_resume now (StartOk message) st in
  court_status (courtroomSessionState (appState st')) = "STARTING"
  /\ (exists i : positive,
        courtroomPollingInterval st' = Some i /\ intervals st' = {[i]})
  /\ startCourtroomButton_hidden (court (page st')) = true
  /\ resetCourtroomButton_hidden (court (page st')) = true
  /\ startCourtroomButton_disabled (court (page st')) = false
  /\ network st' = network st.
Proof.
  cbn zeta. destruct (reachable_invariants history) as [Htr _].
  pose proof (step_tracked (StartReplyArrives now (StartOk message)) _ Htr)
    as Htr'.
  cbn [step] in Htr'. unfold intervals_tracked in Htr'.
  set (st := run history initial_state) in *. clearbody st.
  assert (H : court_status (courtroomSessionState (appState
                (startCourtroomSession_resume now (StartOk message) st)))
              = "STARTING"
              /\ (exists i, courtroomPollingInterval
                    (startCourtroomSession_resume now (StartOk message) st)
                    = Some i)
              /\ startCourtroomButton_hidden (court (page
                   (startCourtroomSession_resume now (StartOk message) st))) = true
              /\ resetCourtroomButton_hidden (court (page
                   (startCourtroomSession_resume now (StartOk message) st))) = true
              /\ startCourtroomButton_disabled (court (page
                   (startCourtroomSession_resume now (StartOk message) st))) = false
              /\ network (startCourtroomSession_resume now (StartOk message) st)
                 = network st).
  { clear. run_handlers. split_tests; repeat split; eauto. }
  destruct H as (H1 & (i & H2) & H3 & H4 & H5 & H6).
  repeat split; try assumption.
  exists i. split; [exact H2|]. rewrite Htr', H2. reflexivity.
Qed.

(** X16. When starting the session fails (status other than 2xx, or a thrown
    error), in any reachable state: the local status becomes ERROR with the
    failure message attached, the message is shown in the error banner, no
    interval is left scheduled, the reset button is offered and the start
    button is enabled again. *)
Theorem start_failure_sets_error
    (history : list Event) (now : string) (reply : StartReply) (m : string) :
  start_failure_message reply = Some m ->
  let st := run history initial_state in
  let st' := startCourtroomSession_resume now reply st in
  court_status (courtroomSessionState (appState st')) = "ERROR"
  /\ error_message (courtroomSessionState (appState st')) = Some m
  /\ error (appState st') = Some ("Error starting courtroom session: " +:+ m)
  /\ errorDisplay_hidden (main (page st')) = false
  /\ courtroomPollingInterval st' = None
  /\ intervals st' = ∅
  /\ resetCourtroomButton_hidden (court (page st')) = false
  /\ startCourtroomButton_disabled (court (page st')) = false.
Proof.
  intros Hm. cbn zeta. destruct (reachable_invariants history) as [Htr _].
  pose proof (step_tracked (StartReplyArrives now reply) _ Htr) as Htr'.
  cbn [step] in Htr'. unfold intervals_tracked in Htr'.
  set (st := run history initial_state) in *. clearbody st.
  assert (H : court_status (courtroomSessionState (appState
                (startCourtroomSession_resume now reply st))) = "ERROR"
              /\ error_message (courtroomSessionState (appState
                   (startCourtroomSession_resume now reply st))) = Some m
              /\ error (appState (startCourtroomSession_resume now reply st))
                 = Some ("Error starting courtroom session: " +:+ m)
              /\ errorDisplay_hidden (main (page
                   (startCourtroomSession_resume now reply st))) = false
              /\ courtroomPollingInterval
                   (startCourtroomSession_resume now reply st) = None
              /\ resetCourtroomButton_hidden (court (page
                   (startCourtroomSession_resume now reply st))) = false
              /\ startCourtroomButton_disabled (court (page
                   (startCourtroomSession_resume now reply st))) = false).
  { clear Htr Htr'.
    destruct reply as [msg | detail | msg]; cbn in Hm;
      [discriminate | |]; injection Hm as <-;
      run_handlers; split_tests_js; repeat split; reflexivity. }
  destruct H as (H1 & H2 & H3 & H4 & H5 & H6 & H7).
  repeat split; try assumption. rewrite Htr', H5. reflexivity.
Qed.

Lemma start_failure_sets_error_witness :
  start_failure_message (StartThrow "Failed to fetch") = Some "Failed to fetch"
  /\ let st := run flagged_history initial_state in
     let st' :=
       startCourtroomSession_resume sample_time (StartThrow "Failed to fetch") st in
     court_status (courtroomSessionState (appState st')) = "ERROR"
     /\ error_message (courtroomSessionState (appState st'))
        = Some "Failed to fetch"
     /\ error (appState st')
        = Some ("Error starting courtroom session: " +:+ "Failed to fetch")
     /\ errorDisplay_hidden (main (page st')) = false
     /\ courtroomPollingInterval st' = None
     /\ intervals st' = ∅
     /\ resetCourtroomButton_hidden (court (page st')) = false
     /\ startCourtroomButton_disabled (court (page st')) = false.
Proof.
  assert (H : start_failure_message (StartThrow "Failed to fetch")
              = Some "Failed to fetch") by reflexivity.
  exact (conj H (start_failure_sets_error flagged_history sample_time
                   (StartThrow "Failed to fetch") "Failed to fetch" H)).
Defined.
End PopupHandlers.


Section FlagHandler.
Import Popup.

Lemma network_handleFlagPost_resume (now : string) (reply : FlagReply)
    (st : State) :
  network (handleFlagPost_resume now reply st) = network st.
Proof.
  destruct reply as [data json | detail http json | message];
    run_handlers; split_tests_js; reflexivity.
Qed.

Lemma handleFlagPost_begin_decides (now : string) (st : State) :
  fst (handleFlagPost_begin now st)
  = (if flag_form_valid st then Some (flag_body st) else None)
  /\ network (snd (handleFlagPost_begin now st))
     = network st
       ++ (if flag_form_valid st then [PostFlagPost (flag_body st)] else []).
Proof.
  unfold flag_form_valid, flag_body, victimEthAddress_accepted,
    FASTAPI_BACKEND_URL.
  revert now. run_handlers. intros now.
  unfold FASTAPI_BACKEND_URL. split_tests_js;
    rewrite ?app_nil_r; split; reflexivity.
Qed.

(** X8. [handleFlagPost] sends its request exactly when all four checks pass
    (content and victim information non-empty after trimming, address empty
    or well-formed, identity known), the body carries the trimmed field
    values and the user identifier, and a whole invocation hands [fetch]
    that one request and nothing else, whatever the reply. *)
Theorem flag_request_sent_iff_valid (now : string) (st : State) :
  fst (handleFlagPost_begin now st)
  = (if flag_form_valid st then Some (flag_body st) else None)
  /\ network (snd (handleFlagPost_begin now st))
     = network st
       ++ (if flag_form_valid st then [PostFlagPost (flag_body st)] else [])
  /\ forall (reply : FlagReply) (later : string),
       network (handleFlagPost now reply later st)
       = network st
         ++ (if flag_form_valid st then [PostFlagPost (flag_body st)] else []).
Proof.
  destruct (handleFlagPost_begin_decides now st) as [H1 H2].
  split; [exact H1|]. split; [exact H2|].
  intros reply later. unfold handleFlagPost.
  destruct (handleFlagPost_begin now st) as [[body|] st1]; cbn [fst snd] in *.
  - rewrite network_handleFlagPost_resume. exact H2.
  - exact H2.
Qed.

(** X9. Between the request and its reply the form is busy, the log has been
    emptied down to the one "Sending..." entry and the error banner is
    cleared; when the reply has been handled, whatever it was, the busy
    flag is released. *)
Theorem flag_busy_until_reply
    (now later : string) (reply : FlagReply) (st : State) :
  flag_form_valid st = true ->
  let sent := snd (handleFlagPost_begin now st) in
  isProcessing (appState sent) = true
  /\ flagPostButton_processing (form (page sent)) = true
  /\ log (appState sent)
     = [now +:+ ": " +:+ "Sending flag post request to backend..."]
  /\ error (appState sent) = Some ""
  /\ errorDisplay_hidden (main (page sent)) = true
  /\ isProcessing (appState (handleFlagPost_resume later reply sent)) = false
  /\ flagPostButton_processing
       (form (page (handleFlagPost_resume later reply sent))) = false.
Proof.
  unfold flag_form_valid, victimEthAddress_accepted.
  revert now later. destruct reply as [data json | detail http json | message];
    run_handlers; intros now later; unfold FASTAPI_BACKEND_URL;
    split_tests_js; intros Hv; try discriminate Hv;
    repeat split; reflexivity.
Qed.

Lemma flag_busy_until_reply_witness :
  flag_form_valid ready_state = true
  /\ let sent := snd (handleFlagPost_begin sample_time ready_state) in
     isProcessing (appState sent) = true
     /\ flagPostButton_processing (form (page sent)) = true
     /\ log (appState sent)
        = [sample_time +:+ ": " +:+ "Sending flag post request to backend..."]
     /\ error (appState sent) = Some ""
     /\ errorDisplay_hidden (main (page sent)) = true
     /\ isProcessing
          (appState (handleFlagPost_resume sample_time sample_flag_reply sent))
        = false
     /\ flagPostButton_processing
          (form (page (handleFlagPost_resume sample_time sample_flag_reply sent)))
        = false.
Proof.
  assert (H : flag_form_valid ready_state = true) by (vm_compute; reflexivity).
  exact (conj H (flag_busy_until_reply sample_time sample_time
                   sample_flag_reply ready_state H)).
Defined.

(** X10. A 2xx reply whose [case_details.status] is anything but "Case Closed -
    No Violation" binds the returned case identifier and switches to the
    courtroom view. The session state is left as it was (it is not reset),
    and since rendering the courtroom makes sure polling is active, an
    interval is scheduled at once when that session is not terminal and
    none was set. *)
Theorem flag_violation_opens_courtroom
    (now : string) (data : FlagData) (json : string) (st : State) :
  reports_violation (FlagOk data json) = true ->
  let st' := handleFlagPost_resume now (FlagOk data json) st in
  currentCaseIdForCourtroom (appState st') = data_case_id data
  /\ showCourtroom (appState st') = true
  /\ mainContentArea_hidden (main (page st')) = true
  /\ courtroomSessionArea_hidden (court (page st')) = false
  /\ courtroomCaseIdDisplay (court (page st')) = default "" (data_case_id data)
  /\ status (appState st') = "Violation detected. Courtroom session commencing!"
  /\ courtroomSessionState (appState st') = courtroomSessionState (appState st)
  /\ courtroomPollingInterval st' =
       (if is_terminal (court_status (courtroomSessionState (appState st)))
        then None
        else if Js.is_null (courtroomPollingInterval st)
        then Some (next_interval st)
        else courtroomPollingInterval st).
Proof.
  cbn [reports_violation]. revert now. run_handlers. intros now.
  split_handlers; intros Hv; try discriminate Hv; repeat split; reflexivity.
Qed.

Lemma flag_violation_opens_courtroom_witness :
  reports_violation sample_flag_reply = true
  /\ let st' :=
       handleFlagPost_resume sample_time sample_flag_reply signed_in_state in
     currentCaseIdForCourtroom (appState st') = Some "c1"
     /\ showCourtroom (appState st') = true
     /\ courtroomPollingInterval st' = Some 1%positive.
Proof.
  assert (H : reports_violation sample_flag_reply = true) by reflexivity.
  pose proof (flag_violation_opens_courtroom sample_time _ _ signed_in_state H)
    as (H1 & H2 & _ & _ & _ & _ & _ & H8).
  split; [exact H|]. split; [exact H1|]. split; [exact H2 | exact H8].
Defined.

(** X11. Any other reply (no [case_details], the no-violation status, a status
    other than 2xx, a thrown error) leaves the view switch, the bound case,
    the session state, the polling and the courtroom area as they were. *)
Theorem flag_without_violation_keeps_view
    (now : string) (reply : FlagReply) (st : State) :
  reports_violation reply = false ->
  let st' := handleFlagPost_resume now reply st in
  showCourtroom (appState st') = showCourtroom (appState st)
  /\ currentCaseIdForCourtroom (appState st')
     = currentCaseIdForCourtroom (appState st)
  /\ courtroomSessionState (appState st') = courtroomSessionState (appState st)
  /\ courtroomPollingInterval st' = courtroomPollingInterval st
  /\ intervals st' = intervals st
  /\ court (page st') = court (page st)
  /\ mainContentArea_hidden (main (page st'))
     = mainContentArea_hidden (main (page st)).
Proof.
  revert now. destruct reply as [data json | detail http json | message];
    cbn [reports_violation]; run_handlers; intros now;
    split_tests_js; intros Hv; try discriminate Hv; repeat split; reflexivity.
Qed.

Lemma flag_without_violation_keeps_view_witness :
  reports_violation no_violation_reply = false
  /\ let st' :=
       handleFlagPost_resume sample_time no_violation_reply signed_in_state in
     showCourtroom (appState st') = showCourtroom (appState signed_in_state)
     /\ currentCaseIdForCourtroom (appState st')
        = currentCaseIdForCourtroom (appState signed_in_state)
     /\ courtroomSessionState (appState st')
        = courtroomSessionState (appState signed_in_state)
     /\ courtroomPollingInterval st' = courtroomPollingInterval signed_in_state
     /\ intervals st' = intervals signed_in_state
     /\ court (page st') = court (page signed_in_state)
     /\ mainContentArea_hidden (main (page st'))
        = mainContentArea_hidden (main (page signed_in_state)).
Proof.
  assert (H : reports_violation no_violation_reply = false) by reflexivity.
  exact (conj H (flag_without_violation_keeps_view sample_time
                   no_violation_reply signed_in_state H)).
Defined.

(** X12. When the backend call fails, the message (the [detail] of the reply, or
    a text naming the status, or the message of the thrown error) is shown
    in the error banner behind "Error during initial processing: ", appended
    to the log, and the status line says so. *)
Theorem flag_failure_reports_error
    (now : string) (reply : FlagReply) (m : string) (st : State) :
  flag_failure_message reply = Some m ->
  let st' := handleFlagPost_resume now reply st in
  error (appState st') = Some ("Error during initial processing: " +:+ m)
  /\ errorDisplay_hidden (main (page st')) = false
  /\ errorMessageSpan (main (page st'))
     = "Error during initial processing: " +:+ m
  /\ status (appState st') = "Error during initial processing."
  /\ log (appState st')
     = log (appState st)
       ++ [now +:+ ": " +:+ ("Error during initial processing: " +:+ m)].
Proof.
  revert now. destruct reply as [data json | detail http json | message];
    cbn [flag_failure_message]; intros now Hm;
    [discriminate Hm | |]; injection Hm as <-;
    run_handlers; split_tests_js; repeat split; reflexivity.
Qed.

Lemma flag_failure_reports_error_witness :
  flag_failure_message (FlagThrow "Failed to fetch") = Some "Failed to fetch"
  /\ let st' :=
       handleFlagPost_resume sample_time (FlagThrow "Failed to fetch")
         signed_in_state in
     error (appState st')
     = Some ("Error during initial processing: " +:+ "Failed to fetch")
     /\ errorDisplay_hidden (main (page st')) = false
     /\ errorMessageSpan (main (page st'))
        = "Error during initial processing: " +:+ "Failed to fetch"
     /\ status (appState st') = "Error during initial processing."
     /\ log (appState st')
        = log (appState signed_in_state)
          ++ [sample_time +:+ ": "
              +:+ ("Error during initial processing: " +:+ "Failed to fetch")].
Proof.
  assert (H : flag_failure_message (FlagThrow "Failed to fetch")
              = Some "Failed to fetch") by reflexivity.
  exact (conj H (flag_failure_reports_error sample_time
                   (FlagThrow "Failed to fetch") "Failed to fetch"
                   signed_in_state H)).
Defined.
End FlagHandler.


Section MirrorAndTimers.
Import Popup.

(** X19. One record of the cache, field by field: every field of the document
    data is kept, and [id] is the document identifier unless the data
    carry an [id] of their own, which then wins. *)
Theorem case_of_doc_fields (d : Doc) (k : string) :
  case_of_doc d !! k =
    match doc_data d !! k with
    | Some v => Some v
    | None => if decide (k = "id") then Some (JString (doc_id d)) else None
    end.
Proof.
  unfold case_of_doc. rewrite lookup_union.
  destruct (doc_data d !! k) as [v|] eqn:Hk.
  - destruct ({[ "id" := JString (doc_id d) ]} !! k); reflexivity.
  - rewrite lookup_singleton. destruct (decide ("id" = k)) as [<-|Hne].
    + destruct (decide ("id" = "id")); [reflexivity | contradiction].
    + destruct (decide (k = "id")); [congruence | reflexivity].
Qed.

(** X20. The ledger mirror is read-only towards the rest of the popup: a
    snapshot changes the cache, the table and the log, and nothing of the
    session, the bound case, the view switch, the polling, the requests,
    the form or the courtroom area; before the identity is known it
    changes nothing at all. *)
Theorem snapshot_touches_only_the_mirror
    (now : string) (docs : list Doc) (st : State) :
  outside_mirror (onSnapshot now docs st) = outside_mirror st
  /\ error (appState (onSnapshot now docs st)) = error (appState st)
  /\ (Js.truthy_opt (userId st) = false -> onSnapshot now docs st = st).
Proof.
  unfold outside_mirror. revert now. run_handlers. intros now.
  split_tests_js; repeat split; try reflexivity; intros H; discriminate H.
Qed.

(** X21. A failing subscription is surfaced and nothing is lost: the error
    banner shows "Firestore Snapshot Error: ..." with the message, the log
    gains that line, and the cached cases and the table stay as the last
    snapshot left them, as does everything outside the mirror. *)
Theorem snapshot_error_keeps_cache (now message : string) (st : State) :
  let st' := onSnapshotError now message st in
  cases (appState st') = cases (appState st)
  /\ casesTableBody (main (page st')) = casesTableBody (main (page st))
  /\ error (appState st') = Some ("Firestore Snapshot Error: " +:+ message)
  /\ errorDisplay_hidden (main (page st')) = false
  /\ errorMessageSpan (main (page st')) = "Firestore Snapshot Error: " +:+ message
  /\ log (appState st')
     = log (appState st)
       ++ [now +:+ ": " +:+ ("Firestore Snapshot Error: " +:+ message)]
  /\ outside_mirror st' = outside_mirror st.
Proof.
  unfold outside_mirror. run_handlers. split_tests_js;
    repeat split; reflexivity.
Qed.

(** X13. A post reported by the content script and then flagged: once the user
    has typed the victim information, the request carries the reported
    content and its source URL (trimmed), whatever the two inputs held
    before. *)
Theorem reported_post_is_flagged
    (now1 now2 content url victim : string) (st : State) :
  Js.truthy (Js.trim content) = true ->
  Js.truthy (Js.trim victim) = true ->
  victimEthAddress_accepted
    (Js.trim (victimEthAddressInput (form (page st)))) = true ->
  Js.truthy_opt (userId st) = true ->
  let st1 :=
    user_types VictimInfoField victim
      (onReportPost now1 (Some content) (Some url) st) in
  fst (handleFlagPost_begin now2 st1) =
    Some {| body_postContent := Js.trim content;
            body_victimInfo := Js.trim victim;
            body_userId := default "" (userId st);
            body_postLink := Js.trim url;
            body_victimEthAddress :=
              Js.trim (victimEthAddressInput (form (page st))) |}.
Proof.
  intros Hc Hv Ha Hu. cbn zeta.
  destruct (handleFlagPost_begin_decides now2
              (user_types VictimInfoField victim
                 (onReportPost now1 (Some content) (Some url) st))) as [H _].
  rewrite H. clear H.
  assert (Hor : forall s, Js.or_default (Some s) "" = s).
  { intros [|c s]; reflexivity. }
  unfold flag_form_valid, flag_body. revert Hc Hv Ha Hu.
  run_handlers. rewrite !Hor. intros Hc Hv Ha Hu.
  rewrite Hc, Hv, Ha, Hu. reflexivity.
Qed.

Lemma reported_post_is_flagged_witness :
  Js.truthy (Js.trim "you are worthless") = true
  /\ Js.truthy (Js.trim "alice") = true
  /\ victimEthAddress_accepted
       (Js.trim (victimEthAddressInput (form (page signed_in_state)))) = true
  /\ Js.truthy_opt (userId signed_in_state) = true
  /\ let st1 :=
       user_types VictimInfoField "alice"
         (onReportPost sample_time (Some "you are worthless")
            (Some "https://example.org/post/1") signed_in_state) in
     fst (handleFlagPost_begin sample_time st1) =
       Some {| body_postContent := Js.trim "you are worthless";
               body_victimInfo := Js.trim "alice";
               body_userId := default "" (userId signed_in_state);
               body_postLink := Js.trim "https://example.org/post/1";
               body_victimEthAddress :=
                 Js.trim (victimEthAddressInput (form (page signed_in_state))) |}.
Proof.
  assert (H1 : Js.truthy (Js.trim "you are worthless") = true)
    by (vm_compute; reflexivity).
  assert (H2 : Js.truthy (Js.trim "alice") = true) by (vm_compute; reflexivity).
  assert (H3 : victimEthAddress_accepted
                 (Js.trim (victimEthAddressInput (form (page signed_in_state))))
               = true) by (vm_compute; reflexivity).
  assert (H4 : Js.truthy_opt (userId signed_in_state) = true)
    by (vm_compute; reflexivity).
  exact (conj H1 (conj H2 (conj H3 (conj H4
           (reported_post_is_flagged sample_time sample_time
              "you are worthless" "https://example.org/post/1" "alice"
              signed_in_state H1 H2 H3 H4))))).
Defined.

(** X18. In every state the popup can reach, reset brings back the flagging
    view with nothing scheduled: the courtroom area is hidden, the main
    area shown, no interval is left, the error is cleared and its banner
    hidden, the status line reads Idle, the start button is offered and the
    reset button and verdict panel hidden; the cached cases, the form and
    the requests issued are not touched. *)
Theorem reset_returns_to_flagging_view (history : list Event) (now : string) :
  let st := run history initial_state in
  let st' := resetCourtroomSessionView now st in
  showCourtroom (appState st') = false
  /\ mainContentArea_hidden (main (page st')) = false
  /\ courtroomSessionArea_hidden (court (page st')) = true
  /\ intervals st' = ∅
  /\ error (appState st') = None
  /\ errorDisplay_hidden (main (page st')) = true
  /\ status (appState st') = "Idle"
  /\ startCourtroomButton_hidden (court (page st')) = false
  /\ resetCourtroomButton_hidden (court (page st')) = true
  /\ finalVerdictDisplay_hidden (court (page st')) = true
  /\ cases (appState st') = cases (appState st)
  /\ form (page st') = form (page st)
  /\ network st' = network st.
Proof.
  cbn zeta. destruct (reachable_invariants history) as [Htr _].
  pose proof (tracked_cleared _ Htr) as Hcl.
  set (st := run history initial_state) in *. clearbody st.
  revert Hcl. run_handlers. intros Hcl.
  repeat split; try reflexivity. exact Hcl.
Qed.

(** X17. A tick of a scheduled interval, with a case bound, hands [fetch] one
    request for that case's updates and changes nothing else; a tick of an
    interval that is not scheduled (cleared, or never set) does nothing. *)
Theorem timer_tick_polls_bound_case (i : positive) (st : State) :
  (forall c : string,
     i ∈ intervals st ->
     currentCaseIdForCourtroom (appState st) = Some c ->
     Js.truthy c = true ->
     timer_fires i st = fetch (GetCourtroomUpdates c) st
     /\ network (timer_fires i st) = network st ++ [GetCourtroomUpdates c])
  /\ (i ∉ intervals st -> timer_fires i st = st).
Proof.
  unfold timer_fires, fetchCourtroomUpdates_begin. split.
  - intros c Hi Hc Ht. rewrite (bool_decide_eq_true_2 _ Hi), Hc, Ht.
    split; reflexivity.
  - intros Hi. rewrite (bool_decide_eq_false_2 _ Hi). reflexivity.
Qed.

Lemma timer_tick_polls_bound_case_witness :
  (2%positive ∈ intervals started_state
   /\ currentCaseIdForCourtroom (appState started_state) = Some "c1"
   /\ Js.truthy "c1" = true)
  /\ network (timer_fires 2 started_state)
     = network started_state ++ [GetCourtroomUpdates "c1"]
  /\ timer_fires 1 started_state = started_state.
Proof.
  assert (Hi : intervals started_state = {[2%positive]})
    by (vm_compute; reflexivity).
  assert (H1 : 2%positive ∈ intervals started_state)
    by (rewrite Hi; apply elem_of_singleton; reflexivity).
  assert (H2 : currentCaseIdForCourtroom (appState started_state) = Some "c1")
    by (vm_compute; reflexivity).
  assert (H3 : Js.truthy "c1" = true) by reflexivity.
  assert (H4 : 1%positive ∉ intervals started_state)
    by (rewrite Hi; intros H%elem_of_singleton; discriminate H).
  split; [exact (conj H1 (conj H2 H3))|].
  split.
  - exact (proj2 (proj1 (timer_tick_polls_bound_case 2 started_state)
                    "c1" H1 H2 H3)).
  - exact (proj2 (timer_tick_polls_bound_case 1 started_state) H4).
Defined.

(** X22. Every address the form lets through, unless empty, is forty-two
    characters long and starts with [0x], as the error message promises. *)
Theorem accepted_address_has_42_characters (s : string) :
  victimEthAddress_accepted s = true ->
  s <> "" ->
  String.length s = 42 /\ substring 0 2 s = "0x".
Proof.
  unfold victimEthAddress_accepted, victimEthAddress_rejected.
  destruct s as [|c s]; [intros _ H; contradiction|].
  cbn [Js.truthy andb]. rewrite negb_involutive. intros H _.
  apply address_pattern_spec in H. destruct H as (d & -> & Hl & _).
  change ("0x" +:+ string_of_list_ascii d)
    with (String "0" (String "x" (string_of_list_ascii d))).
  split; [|destruct d; reflexivity]. cbn [String.length]. rewrite <- Hl. clear.
  f_equal. f_equal. induction d as [|a d IH]; [reflexivity|].
  cbn. f_equal. exact IH.
Qed.

Lemma accepted_address_has_42_characters_witness :
  victimEthAddress_accepted "0x00112233445566778899aAbBcCdDeEfF00112233" = true
  /\ "0x00112233445566778899aAbBcCdDeEfF00112233" <> ""
  /\ String.length "0x00112233445566778899aAbBcCdDeEfF00112233" = 42
  /\ substring 0 2 "0x00112233445566778899aAbBcCdDeEfF00112233" = "0x".
Proof.
  assert (H1 : victimEthAddress_accepted
                 "0x00112233445566778899aAbBcCdDeEfF00112233" = true)
    by (vm_compute; reflexivity).
  assert (H2 : "0x00112233445566778899aAbBcCdDeEfF00112233" <> "")
    by discriminate.
  exact (conj H1 (conj H2
           (accepted_address_has_42_characters _ H1 H2))).
Defined.
End MirrorAndTimers.


(** ** Further properties of the ledger contract *)

Section LedgerMore.
Import Ledger.

Lemma case_at_zero (s : Contract) (id : string) :
  cases s !! id = None -> case_at s id = zero_case.
Proof. unfold case_at. intros ->. reflexivity. Qed.

Lemma case_at_stored (s : Contract) (id : string) :
  timestamp (case_at s id) <> 0%N -> cases s !! id = Some (case_at s id).
Proof.
  unfold case_at. destruct (cases s !! id) as [c|]; cbn; [reflexivity|].
  intros H. contradiction H. reflexivity.
Qed.

(** X23. [recordCase] refuses an identifier that is already recorded; when it
    succeeds it stores exactly its arguments with both flags down and the
    block timestamp, appends the identifier to the list, and touches
    neither the balance nor any other case; and recorded in a block with a
    non-zero timestamp, the identifier can never be recorded again. *)
Theorem recordCase_identifier_unique
    (ts : N) (a : RecordCaseArgs) (s : Contract) :
  (timestamp (case_at s (_caseId a)) <> 0%N -> recordCase ts a s = None)
  /\ forall s' : Contract,
       recordCase ts a s = Some s' ->
       getCase s' (_caseId a) = new_case ts a
       /\ getAllCaseIds s' = getAllCaseIds s ++ [_caseId a]
       /\ balance s' = balance s
       /\ (forall id, id <> _caseId a -> getCase s' id = getCase s id)
       /\ (ts <> 0%N ->
           forall ts' a', _caseId a' = _caseId a -> recordCase ts' a' s' = None).
Proof.
  unfold recordCase, getCase, getAllCaseIds. split.
  - intros H. apply N.eqb_neq in H. rewrite H. reflexivity.
  - intros s' H.
    destruct (timestamp (case_at s (_caseId a)) =? 0)%N; [|discriminate].
    cbn [negb] in H. injection H as <-. repeat split.
    + rewrite case_at_insert. destruct (decide (_caseId a = _caseId a));
        [reflexivity | contradiction].
    + intros id Hne. rewrite case_at_insert.
      destruct (decide (_caseId a = id)); [congruence | reflexivity].
    + intros Hts ts' a' Heq. rewrite Heq, case_at_insert.
      destruct (decide (_caseId a = _caseId a)); [|contradiction].
      cbn [timestamp]. apply N.eqb_neq in Hts. rewrite Hts. reflexivity.
Qed.

Lemma recordCase_identifier_unique_witness :
  recordCase 1000 sample_case deployed = Some recorded
  /\ (1000 <> 0)%N
  /\ recordCase 2000 sample_case recorded = None.
Proof.
  assert (H1 : recordCase 1000 sample_case deployed = Some recorded)
    by (vm_compute; reflexivity).
  assert (H2 : (1000 <> 0)%N) by discriminate.
  split; [exact H1|]. split; [exact H2|].
  exact (proj2 (proj2 (proj2 (proj2
           (proj2 (recordCase_identifier_unique 1000 sample_case deployed)
              recorded H1)))) H2 2000%N sample_case eq_refl).
Defined.

(** X24. [payFine] succeeds exactly for a recorded case whose fine is not yet
    collected and a payment of at least the penalty. It then marks the fine
    collected, keeps the whole amount sent (an overpayment is not
    refunded), leaves every other case and the list alone, and any further
    payment for the case reverts. *)
Theorem payFine_collects_once (id : string) (v : N) (s : Contract) :
  (payFine id v s <> None <->
   timestamp (case_at s id) <> 0%N
   /\ fineCollected (case_at s id) = false
   /\ (penaltyAmountWei (case_at s id) <= v)%N)
  /\ forall s' : Contract,
       payFine id v s = Some s' ->
       fineCollected (getCase s' id) = true
       /\ balance s' = (balance s + v)%N
       /\ getAllCaseIds s' = getAllCaseIds s
       /\ (forall id', id' <> id -> getCase s' id' = getCase s id')
       /\ (forall v', payFine id v' s' = None).
Proof.
  unfold payFine, getCase, getAllCaseIds. cbn zeta. split.
  - destruct (timestamp (case_at s id) =? 0)%N eqn:Hts;
      [apply N.eqb_eq in Hts | apply N.eqb_neq in Hts].
    { split; [intros H; contradiction | intros (H & _); contradiction]. }
    destruct (fineCollected (case_at s id)).
    { split; [intros H; contradiction | intros (_ & H & _); discriminate]. }
    destruct (v <? penaltyAmountWei (case_at s id))%N eqn:Hv;
      [apply N.ltb_lt in Hv | apply N.ltb_ge in Hv].
    { split; [intros H; contradiction | intros (_ & _ & H); lia]. }
    split; [intros _; repeat split; assumption | intros _; discriminate].
  - intros s' H.
    destruct (timestamp (case_at s id) =? 0)%N eqn:Hts; [discriminate|].
    destruct (fineCollected (case_at s id)); [discriminate|].
    destruct (v <? penaltyAmountWei (case_at s id))%N; [discriminate|].
    injection H as <-. repeat split.
    + rewrite case_at_insert. destruct (decide (id = id));
        [reflexivity | contradiction].
    + intros id' Hne. rewrite case_at_insert.
      destruct (decide (id = id')); [congruence | reflexivity].
    + intros v'. rewrite !case_at_insert.
      destruct (decide (id = id)); [|contradiction].
      cbn [timestamp fineCollected set_fineCollected]. rewrite Hts. reflexivity.
Qed.

Lemma payFine_collects_once_witness :
  payFine "c1" 100 recorded = Some paid
  /\ fineCollected (getCase paid "c1") = true
  /\ balance paid = (balance recorded + 100)%N
  /\ getAllCaseIds paid = getAllCaseIds recorded
  /\ (forall id', id' <> "c1" -> getCase paid id' = getCase recorded id')
  /\ (forall v', payFine "c1" v' paid = None).
Proof.
  assert (H : payFine "c1" 100 recorded = Some paid)
    by (vm_compute; reflexivity).
  exact (conj H (proj2 (payFine_collects_once "c1" 100 recorded) paid H)).
Defined.

Lemma exec_distribute_plain (ts : N) (id : string) (s : Contract) :
  exec ts (DistributeCompensation id true []) s =
    if (timestamp (case_at s id) =? 0)%N then None
    else if negb (fineCollected (case_at s id)) then None
    else if compensationDistributed (case_at s id) then None
    else if (balance s <? compensationToVictimWei (case_at s id))%N then None
    else Some (write_compensationDistributed id
                 (debit (compensationToVictimWei (case_at s id)) s)).
Proof. rewrite exec_distribute. reflexivity. Qed.

Lemma case_at_debit (n : N) (s : Contract) (id : string) :
  case_at (debit n s) id = case_at s id.
Proof. reflexivity. Qed.

(** X25. [distributeCompensation], when the victim's address takes the payment
    without calling back: it succeeds exactly for a recorded case whose
    fine is collected, whose compensation is not yet distributed and which
    the balance covers; it then pays exactly the compensation, marks it
    distributed, and a second distribution for the case reverts. A payment
    the victim's address refuses reverts the call. *)
Theorem distribute_pays_once (ts : N) (id : string) (s : Contract) :
  (exec ts (DistributeCompensation id true []) s <> None <->
   timestamp (case_at s id) <> 0%N
   /\ fineCollected (case_at s id) = true
   /\ compensationDistributed (case_at s id) = false
   /\ (compensationToVictimWei (case_at s id) <= balance s)%N)
  /\ (forall s' : Contract,
        exec ts (DistributeCompensation id true []) s = Some s' ->
        balance s' = (balance s - compensationToVictimWei (case_at s id))%N
        /\ compensationDistributed (getCase s' id) = true
        /\ fineCollected (getCase s' id) = true
        /\ (forall id', id' <> id -> getCase s' id' = getCase s id')
        /\ (forall ts' accepted reentrant,
              exec ts' (DistributeCompensation id accepted reentrant) s' = None))
  /\ (forall reentrant,
        exec ts (DistributeCompensation id false reentrant) s = None).
Proof.
  rewrite exec_distribute_plain. unfold getCase. split; [|split].
  - destruct (timestamp (case_at s id) =? 0)%N eqn:Hts;
      [apply N.eqb_eq in Hts | apply N.eqb_neq in Hts].
    { split; [intros H; contradiction | intros (H & _); contradiction]. }
    destruct (fineCollected (case_at s id)); cbn [negb].
    2:{ split; [intros H; contradiction | intros (_ & H & _); discriminate]. }
    destruct (compensationDistributed (case_at s id)).
    { split; [intros H; contradiction | intros (_ & _ & H & _); discriminate]. }
    destruct (balance s <? compensationToVictimWei (case_at s id))%N eqn:Hb;
      [apply N.ltb_lt in Hb | apply N.ltb_ge in Hb].
    { split; [intros H; contradiction | intros (_ & _ & _ & H); lia]. }
    split; [intros _; repeat split; assumption | intros _; discriminate].
  - intros s' H.
    destruct (timestamp (case_at s id) =? 0)%N eqn:Hts; [discriminate|].
    destruct (fineCollected (case_at s id)) eqn:Hf; [|discriminate].
    destruct (compensationDistributed (case_at s id)); [discriminate|].
    destruct (balance s <? compensationToVictimWei (case_at s id))%N;
      [discriminate|].
    cbn [negb] in H. injection H as <-.
    unfold write_compensationDistributed. repeat split.
    + rewrite case_at_insert. destruct (decide (id = id));
        [reflexivity | contradiction].
    + rewrite case_at_insert. destruct (decide (id = id)); [|contradiction].
      rewrite case_at_debit. cbn. exact Hf.
    + intros id' Hne. rewrite case_at_insert.
      destruct (decide (id = id')); [congruence | apply case_at_debit].
    + intros ts' accepted reentrant. rewrite exec_distribute. cbn zeta.
      rewrite !case_at_insert. destruct (decide (id = id)); [|contradiction].
      rewrite case_at_debit.
      cbn [timestamp fineCollected compensationDistributed
           set_compensationDistributed].
      rewrite Hts, Hf. reflexivity.
  - intros reentrant. rewrite exec_distribute. cbn zeta. cbn [negb].
    repeat match goal with
           | |- context [if ?b then None else _] => destruct b; [reflexivity|]
           end.
    reflexivity.
Qed.

Lemma distribute_pays_once_witness :
  exec 1020 (DistributeCompensation "c1" true []) paid = Some compensated
  /\ balance compensated
     = (balance paid - compensationToVictimWei (case_at paid "c1"))%N
  /\ compensationDistributed (getCase compensated "c1") = true
  /\ fineCollected (getCase compensated "c1") = true
  /\ (forall id', id' <> "c1" -> getCase compensated id' = getCase paid id')
  /\ (forall ts' accepted reentrant,
        exec ts' (DistributeCompensation "c1" accepted reentrant) compensated
        = None).
Proof.
  assert (H : exec 1020 (DistributeCompensation "c1" true []) paid
              = Some compensated) by (vm_compute; reflexivity).
  exact (conj H (proj1 (proj2 (distribute_pays_once 1020 "c1" paid))
                   compensated H)).
Defined.

(** X26. The flag [compensationDistributed] is written after the payment is
    sent, so a victim address that calls [distributeCompensation] again
    while it is being paid passes the checks a second time: with a balance
    of at least twice the compensation, the call succeeds and the victim
    has been paid twice. *)
Theorem reentrant_victim_is_paid_twice (ts : N) (id : string) (s : Contract) :
  timestamp (case_at s id) <> 0%N ->
  fineCollected (case_at s id) = true ->
  compensationDistributed (case_at s id) = false ->
  (2 * compensationToVictimWei (case_at s id) <= balance s)%N ->
  exists s' : Contract,
    exec ts (DistributeCompensation id true
               [DistributeCompensation id true []]) s = Some s'
    /\ balance s'
       = (balance s - 2 * compensationToVictimWei (case_at s id))%N
    /\ compensationDistributed (getCase s' id) = true.
Proof.
  intros Hts Hf Hd Hb. rewrite exec_distribute. cbn zeta.
  apply N.eqb_neq in Hts. rewrite Hts, Hf, Hd. cbn [negb].
  assert (Hb1 : (balance s <? compensationToVictimWei (case_at s id))%N = false)
    by (apply N.ltb_ge; lia).
  rewrite Hb1. unfold exec_all. cbn [fold_left].
  rewrite exec_distribute_plain, case_at_debit, Hts, Hf, Hd. cbn [negb].
  assert (Hb2 : (balance (debit (compensationToVictimWei (case_at s id)) s)
                 <? compensationToVictimWei (case_at s id))%N = false)
    by (apply N.ltb_ge; cbn; lia).
  rewrite Hb2. cbn [from_option]. eexists. split; [reflexivity|].
  unfold getCase, write_compensationDistributed. split.
  - cbn. lia.
  - rewrite case_at_insert. destruct (decide (id = id)); [|contradiction].
    reflexivity.
Qed.

Lemma reentrant_victim_is_paid_twice_witness :
  timestamp (case_at paid "c1") <> 0%N
  /\ fineCollected (case_at paid "c1") = true
  /\ compensationDistributed (case_at paid "c1") = false
  /\ (2 * compensationToVictimWei (case_at paid "c1") <= balance paid)%N
  /\ exists s' : Contract,
       exec 1020 (DistributeCompensation "c1" true
                    [DistributeCompensation "c1" true []]) paid = Some s'
       /\ balance s'
          = (balance paid - 2 * compensationToVictimWei (case_at paid "c1"))%N
       /\ compensationDistributed (getCase s' "c1") = true.
Proof.
  assert (H1 : timestamp (case_at paid "c1") <> 0%N)
    by (vm_compute; discriminate).
  assert (H2 : fineCollected (case_at paid "c1") = true)
    by (vm_compute; reflexivity).
  assert (H3 : compensationDistributed (case_at paid "c1") = false)
    by (vm_compute; reflexivity).
  assert (H4 : (2 * compensationToVictimWei (case_at paid "c1")
                <= balance paid)%N) by (vm_compute; discriminate).
  exact (conj H1 (conj H2 (conj H3 (conj H4
           (reentrant_victim_is_paid_twice 1020 "c1" paid H1 H2 H3 H4))))).
Defined.
End LedgerMore.


Section LedgerRecords.
Import Ledger.

Lemma case_settles_refl (c : Case) : case_settles c c.
Proof. repeat split; auto. Qed.

Lemma case_settles_trans (a b c : Case) :
  case_settles a b -> case_settles b c -> case_settles a c.
Proof.
  intros (H1 & H2 & H3) (H4 & H5 & H6). repeat split.
  - rewrite H4. exact H1.
  - intros H. apply H5, H2, H.
  - intros H. apply H6, H3, H.
Qed.

Lemma case_settles_timestamp (a b : Case) :
  case_settles a b -> timestamp a <> 0%N -> timestamp b <> 0%N.
Proof.
  intros (H & _) Ha. unfold terms in H. injection H as _ _ _ _ _ _ _ _ _ _ H.
  rewrite H. exact Ha.
Qed.

Lemma exec_all_keeps_records (ts : N) (cs : list Call) :
  Forall call_keeps_records cs ->
  forall (s : Contract) (id : string),
    timestamp (case_at s id) <> 0%N ->
    case_settles (case_at s id) (case_at (exec_all ts cs s) id).
Proof.
  induction 1 as [|c cs Hc _ IH]; intros s id Hts; [apply case_settles_refl|].
  unfold exec_all in *. cbn [fold_left].
  destruct (exec ts c s) as [s1|] eqn:He; cbn [from_option].
  - pose proof (Hc ts s s1 He id Hts) as H1.
    eapply case_settles_trans; [exact H1|].
    apply IH. eapply case_settles_timestamp; eassumption.
  - apply IH, Hts.
Qed.

Lemma every_call_keeps_records (c : Call) : call_keeps_records c.
Proof.
  induction c as [a | id v | id accepted reentrant IH] using Call_nested_ind;
    intros ts s s' He id' Hts.
  - cbn [exec] in He. unfold recordCase in He.
    destruct (timestamp (case_at s (_caseId a)) =? 0)%N eqn:H0;
      [|discriminate]. cbn [negb] in He. injection He as <-.
    apply N.eqb_eq in H0. rewrite case_at_insert.
    destruct (decide (_caseId a = id')) as [Heq|]; [|apply case_settles_refl].
    exfalso. apply Hts. rewrite <- Heq. exact H0.
  - cbn [exec] in He. unfold payFine in He. cbn zeta in He.
    destruct (timestamp (case_at s id) =? 0)%N; [discriminate|].
    destruct (fineCollected (case_at s id)); [discriminate|].
    destruct (v <? penaltyAmountWei (case_at s id))%N; [discriminate|].
    injection He as <-. rewrite case_at_insert.
    destruct (decide (id = id')) as [->|]; [|apply case_settles_refl].
    repeat split; auto.
  - rewrite exec_distribute in He. cbn zeta in He.
    destruct (timestamp (case_at s id) =? 0)%N; [discriminate|].
    destruct (fineCollected (case_at s id)); [|discriminate].
    destruct (compensationDistributed (case_at s id)); [discriminate|].
    destruct (balance s <? compensationToVictimWei (case_at s id))%N;
      [discriminate|].
    destruct accepted; [|discriminate]. cbn [negb] in He. injection He as <-.
    pose proof (exec_all_keeps_records ts reentrant IH
                  (debit (compensationToVictimWei (case_at s id)) s) id' Hts)
      as Hd.
    unfold write_compensationDistributed. rewrite case_at_insert.
    destruct (decide (id = id')) as [->|]; [|exact Hd].
    eapply case_settles_trans; [exact Hd|]. repeat split; auto.
Qed.

(** X27. Through any run of transactions, re-entrant calls included, a recorded
    case keeps the terms it was recorded with (identifier, hash, victim,
    violation, decision, penalty, ban, explanation, compensation, score,
    timestamp), and its two flags, once up, stay up. *)
Theorem recorded_case_is_settled (s s' : Contract) (id : string) :
  evolves s s' ->
  timestamp (getCase s id) <> 0%N ->
  terms (getCase s' id) = terms (getCase s id)
  /\ (fineCollected (getCase s id) = true ->
      fineCollected (getCase s' id) = true)
  /\ (compensationDistributed (getCase s id) = true ->
      compensationDistributed (getCase s' id) = true).
Proof.
  unfold getCase. intros Hev Hts. change (case_settles (case_at s id) (case_at s' id)).
  induction Hev as [s | s s1 s' ts c _ IH He]; [apply case_settles_refl|].
  eapply case_settles_trans; [exact (IH Hts)|].
  apply (every_call_keeps_records c ts s1 s' He).
  eapply case_settles_timestamp; [exact (IH Hts) | exact Hts].
Qed.

Lemma compensated_evolves : evolves recorded compensated.
Proof.
  apply (evolves_call recorded paid _ 1020 (DistributeCompensation "c1" true []));
    [|vm_compute; reflexivity].
  apply (evolves_call recorded recorded _ 1010 (PayFine "c1" 100));
    [|vm_compute; reflexivity].
  apply evolves_refl.
Defined.

Lemma recorded_case_is_settled_witness :
  evolves recorded compensated
  /\ timestamp (getCase recorded "c1") <> 0%N
  /\ terms (getCase compensated "c1") = terms (getCase recorded "c1")
  /\ (fineCollected (getCase recorded "c1") = true ->
      fineCollected (getCase compensated "c1") = true)
  /\ (compensationDistributed (getCase recorded "c1") = true ->
      compensationDistributed (getCase compensated "c1") = true).
Proof.
  assert (H : timestamp (getCase recorded "c1") <> 0%N)
    by (vm_compute; discriminate).
  exact (conj compensated_evolves (conj H
           (recorded_case_is_settled recorded compensated "c1"
              compensated_evolves H))).
Defined.

Lemma exec_all_keeps_listing (ts : N) (cs : list Call) :
  Forall call_keeps_listing cs ->
  forall s : Contract, listed s -> listed (exec_all ts cs s).
Proof.
  induction 1 as [|c cs Hc _ IH]; intros s Hs; [exact Hs|].
  unfold exec_all in *. cbn [fold_left].
  destruct (exec ts c s) as [s1|] eqn:He; cbn [from_option].
  - apply IH. exact (Hc ts s s1 He Hs).
  - apply IH, Hs.
Qed.

Lemma every_call_keeps_listing (c : Call) : call_keeps_listing c.
Proof.
  induction c as [a | id v | id accepted reentrant IH] using Call_nested_ind;
    intros ts s s' He Hl.
  - cbn [exec] in He. unfold recordCase in He.
    destruct (timestamp (case_at s (_caseId a)) =? 0)%N; [|discriminate].
    cbn [negb] in He. injection He as <-. intros id c. cbn [cases caseIds].
    rewrite lookup_insert. destruct (decide (_caseId a = id)) as [<-|Hne].
    + intros H. injection H as <-. split; [set_solver | reflexivity].
    + intros H. destruct (Hl id c H) as [Hin Hid]. split; [set_solver | exact Hid].
  - cbn [exec] in He. unfold payFine in He. cbn zeta in He.
    destruct (timestamp (case_at s id) =? 0)%N eqn:Hts; [discriminate|].
    destruct (fineCollected (case_at s id)); [discriminate|].
    destruct (v <? penaltyAmountWei (case_at s id))%N; [discriminate|].
    injection He as <-. apply N.eqb_neq in Hts.
    intros id' c. cbn [cases caseIds]. rewrite lookup_insert.
    destruct (decide (id = id')) as [<-|Hne]; [|apply Hl].
    intros H. injection H as <-.
    destruct (Hl id _ (case_at_stored s id Hts)) as [Hin Hid].
    split; [exact Hin | exact Hid].
  - rewrite exec_distribute in He. cbn zeta in He.
    destruct (timestamp (case_at s id) =? 0)%N eqn:Hts; [discriminate|].
    destruct (fineCollected (case_at s id)) eqn:Hf; [|discriminate].
    destruct (compensationDistributed (case_at s id)); [discriminate|].
    destruct (balance s <? compensationToVictimWei (case_at s id))%N;
      [discriminate|].
    destruct accepted; [|discriminate]. cbn [negb] in He. injection He as <-.
    apply N.eqb_neq in Hts.
    set (s1 := debit (compensationToVictimWei (case_at s id)) s).
    assert (Hl1 : listed (exec_all ts reentrant s1))
      by (apply exec_all_keeps_listing; [exact IH | exact Hl]).
    assert (Hts1 : timestamp (case_at (exec_all ts reentrant s1) id) <> 0%N).
    { apply (case_settles_timestamp (case_at s1 id)); [|exact Hts].
      apply (exec_all_keeps_records ts reentrant); [|exact Hts].
      apply Forall_forall. intros c _. apply every_call_keeps_records. }
    intros id' c. unfold write_compensationDistributed. cbn [cases caseIds].
    rewrite lookup_insert.
    destruct (decide (id = id')) as [<-|Hne]; [|apply Hl1].
    intros H. injection H as <-.
    destruct (Hl1 id _ (case_at_stored _ id Hts1)) as [Hin Hid].
    split; [exact Hin | exact Hid].
Qed.

Lemma reachable_listed (s : Contract) : reachable s -> listed s.
Proof.
  induction 1 as [|s s' ts c _ IH He].
  - intros id c H. cbn in H. rewrite lookup_empty in H. discriminate H.
  - exact (every_call_keeps_listing c ts s s' He IH).
Qed.

(** X28. In every state the contract can reach, [getAllCaseIds] lists every
    case that exists, a case is stored under the identifier it carries,
    and [getCase] of an identifier that is not listed returns the all-zero
    record instead of failing. *)
Theorem listed_cases_are_the_recorded_ones (s : Contract) (id : string) :
  reachable s ->
  (timestamp (getCase s id) <> 0%N ->
   id ∈ getAllCaseIds s /\ caseId (getCase s id) = id)
  /\ (id ∉ getAllCaseIds s -> getCase s id = zero_case).
Proof.
  intros Hr. pose proof (reachable_listed s Hr) as Hl.
  unfold getCase, getAllCaseIds. split.
  - intros Hts. exact (Hl id _ (case_at_stored s id Hts)).
  - intros Hn. apply case_at_zero.
    destruct (cases s !! id) as [c|] eqn:Hc; [|reflexivity].
    destruct (Hl id c Hc) as [Hin _]. contradiction.
Qed.

Lemma listed_cases_are_the_recorded_ones_witness :
  reachable compensated
  /\ (timestamp (getCase compensated "c1") <> 0%N ->
      "c1" ∈ getAllCaseIds compensated
      /\ caseId (getCase compensated "c1") = "c1")
  /\ ("c9" ∉ getAllCaseIds compensated -> getCase compensated "c9" = zero_case).
Proof.
  exact (conj compensated_reachable
           (conj
              (proj1 (listed_cases_are_the_recorded_ones compensated "c1"
                        compensated_reachable))
              (proj2 (listed_cases_are_the_recorded_ones compensated "c9"
                        compensated_reachable)))).
Defined.
End LedgerRecords.


Section RenderFacts.
Import Popup.

(** X6. Rendering the courtroom a second time changes nothing: the first pass
    has already set every element, stopped the polling of a finished
    session, or scheduled the interval a live one needs, so the second pass
    neither schedules another interval nor writes a log entry. *)
Theorem render_twice_is_render_once (now1 now2 : string) (st : State) :
  renderCourtroomSessionState now2 (renderCourtroomSessionState now1 st)
  = renderCourtroomSessionState now1 st.
Proof.
  rewrite !renderCourtroomSessionState_eq. open_state st.
  reduce_state. split_tests; reflexivity.
Qed.

Lemma no_panel_highlighted (state : CourtroomSessionState) (l : list Agent) :
  (forall a, a ∈ l -> current_turn_agent state <> Some (name a)) ->
  filter (fun p => panel_highlighted p = true)
    (map (render_agent_panel state) l) = [].
Proof.
  induction l as [|a l IH]; intros H; [reflexivity|].
  cbn [map]. rewrite filter_cons_False.
  - apply IH. intros b Hb. apply H. set_solver.
  - cbn [panel_highlighted render_agent_panel]. intros Hh.
    apply bool_decide_eq_true in Hh. apply (H a); [set_solver | exact Hh].
Qed.

Lemma highlighted_names (state : CourtroomSessionState) (l : list Agent) :
  NoDup (map name l) ->
  map (fun p => name (panel_agent p))
    (filter (fun p => panel_highlighted p = true)
       (map (render_agent_panel state) l))
  = match current_turn_agent state with
    | Some n => if bool_decide (n ∈ map name l) then [n] else []
    | None => []
    end.
Proof.
  induction l as [|a l IH]; intros Hnd.
  - cbn [map]. rewrite filter_nil. cbn [map].
    destruct (current_turn_agent state) as [n|]; [|reflexivity].
    rewrite bool_decide_eq_false_2; [reflexivity | set_solver].
  - cbn [map] in *. apply NoDup_cons in Hnd. destruct Hnd as [Hna Hnd].
    destruct (decide (current_turn_agent state = Some (name a))) as [Ha|Ha].
    + rewrite filter_cons_True
        by (cbn [panel_highlighted render_agent_panel];
            apply bool_decide_eq_true; exact Ha).
      rewrite no_panel_highlighted.
      * rewrite Ha. rewrite bool_decide_eq_true_2; [reflexivity | set_solver].
      * intros b Hb Hcur. apply Hna. rewrite Ha in Hcur.
        injection Hcur as Heq.
        apply list_elem_of_fmap. exists b. split; [exact Heq | exact Hb].
    + rewrite filter_cons_False
        by (cbn [panel_highlighted render_agent_panel]; intros Hh;
            apply bool_decide_eq_true in Hh; contradiction).
      rewrite (IH Hnd).
      destruct (current_turn_agent state) as [n|]; [|reflexivity].
      assert (Hn : n <> name a) by (intros ->; apply Ha; reflexivity).
      destruct (decide (n ∈ map name l)) as [Hin|Hin].
      * rewrite !bool_decide_eq_true_2; [reflexivity | set_solver | exact Hin].
      * rewrite !bool_decide_eq_false_2; [reflexivity | set_solver | exact Hin].
Qed.

(** X7. Among the agent panels drawn by [renderCourtroomSessionState], those
    whose own class list carries the highlight are: the single panel of
    the agent named by [current_turn_agent] when that name is in the
    roster, and none when it is null or names nobody of the roster. No two
    panels are ever highlighted together, the roster's names being
    pairwise distinct. *)
Theorem highlighted_panel_is_the_speaker (state : CourtroomSessionState) :
  map (fun p => name (panel_agent p))
    (filter (fun p => panel_highlighted p = true) (render_agent_panels state))
  = match current_turn_agent state with
    | Some n => if bool_decide (n ∈ map name agentsData) then [n] else []
    | None => []
    end.
Proof.
  apply highlighted_names.
  apply (bool_decide_unpack _). vm_compute. exact I.
Qed.

Lemma step_bound_case_shown (e : Event) (st : State) :
  (currentCaseIdForCourtroom (appState st) <> None ->
   showCourtroom (appState st) = true) ->
  currentCaseIdForCourtroom (appState (step e st)) <> None ->
  showCourtroom (appState (step e st)) = true.
Proof.
  destruct e as [i | c now [d | d | m] | now | now [d j | d h j | m]
                | now | now [m | d | m] | now | now docs | now m | now uid
                | now c u | [ | | | ] text];
    run_handlers; intros H;
    split_tests_js; try exact H; try reflexivity;
    try (intros Hn; contradiction Hn; reflexivity);
    try (intros _; apply H; discriminate).
Qed.

(** X5. In every state the popup can reach, a case is bound only while the
    courtroom view is shown: the identifier is set together with
    [showCourtroom] and cleared together with it. *)
Theorem bound_case_shows_courtroom (history : list Event) :
  let st := run history initial_state in
  currentCaseIdForCourtroom (appState st) <> None ->
  showCourtroom (appState st) = true.
Proof.
  cbn zeta.
  apply (run_invariant (fun st =>
           currentCaseIdForCourtroom (appState st) <> None ->
           showCourtroom (appState st) = true)).
  - intros H. contradiction H. reflexivity.
  - apply step_bound_case_shown.
Qed.

Lemma bound_case_shows_courtroom_witness :
  let st := run started_history initial_state in
  currentCaseIdForCourtroom (appState st) <> None
  /\ showCourtroom (appState st) = true.
Proof.
  assert (H : currentCaseIdForCourtroom
                (appState (run started_history initial_state)) <> None)
    by (vm_compute; discriminate).
  exact (conj H (bound_case_shows_courtroom started_history H)).
Defined.

Lemma courtroom_view_reflects_session_witness :
  let st := run started_history initial_state in
  courtroomSessionArea_hidden (court (page st)) = false
  /\ courtroom_view_of (courtroomSessionState (appState st)) (court (page st))
  /\ courtroomCaseIdDisplay (court (page st))
     = default "" (currentCaseIdForCourtroom (appState st)).
Proof.
  assert (H : courtroomSessionArea_hidden
                (court (page (run started_history initial_state))) = false)
    by (vm_compute; reflexivity).
  exact (conj H (courtroom_view_reflects_session started_history H)).
Defined.
End RenderFacts.
